(** * The MCP Neo4j Cypher test scripts: provisioner and probe

    A shallow embedding of [test_api/start_server.py] (the provisioner) and
    [test_api/test_auth.py] (the probe), and the properties of the
    repository's specification checked against them.

    - [Py]          what the two scripts share of Python: strings, the process
                    state, printing, exceptions, [os.getenv], [load_dotenv],
                    [subprocess.run];
    - [Provisioner] [start_server.py];
    - [Probe]       [test_auth.py];
    - [Plain]       a reader of plain [.env] files, and sample files;
    - [Quoting]     a reader that also knows quotes and inline comments;
    - [Run], [ProvisionerSpec], [ProbeSpec]: the properties.

    A script is a function of the state of the process, a [world]: the
    content of [test_api/.env], [os.environ], what was printed, and the calls
    that went out of the process (children, the MCP session).  It returns,
    exits ([sys.exit]) or raises.  What the scripts get from libraries and
    from other programs is a parameter, [Outside] and [Probe.Server]; the
    theorems hold for every such parameter.  Texts are UTF-8 bytes. *)

From Stdlib Require Import Ascii.
From stdpp Require Import base strings gmap list pretty.

Open Scope string_scope.
Open Scope list_scope.
Open Scope Z_scope.

(** * Python, as far as the scripts use it *)

Module Py.

(** ** Strings *)

Definition nl : string := String (Ascii.ascii_of_nat 10) EmptyString.

(** [sub in s] for a non-empty [sub]. *)
Fixpoint contains (sub s : string) : bool :=
  String.prefix sub s ||
  match s with
  | EmptyString => false
  | String _ s' => contains sub s'
  end.

(** [s.replace(old, new)] for a non-empty [old]: the occurrences of [old] are
    taken from the left and do not overlap.  [skip] counts the characters of
    an occurrence that are still to be passed over. *)
Fixpoint replace_go (old new : string) (skip : nat) (s : string) : string :=
  match s with
  | EmptyString => EmptyString
  | String c s' =>
      match skip with
      | S k => replace_go old new k s'
      | O =>
          if String.prefix old s
          then new +:+ replace_go old new (Nat.pred (String.length old)) s'
          else String c (replace_go old new O s')
      end
  end.

Definition replace (old new s : string) : string := replace_go old new O s.

(** [s.find(sub)] for a non-empty [sub]: where the first occurrence starts. *)
Fixpoint find (sub s : string) : option nat :=
  if String.prefix sub s then Some O
  else match s with
       | EmptyString => None
       | String _ s' => S <$> find sub s'
       end.

(** [s[:n]] and [s[n:]], counted in bytes. *)
Fixpoint bytes_take (n : nat) (s : string) : string :=
  match n, s with
  | S n', String c s' => String c (bytes_take n' s')
  | _, _ => EmptyString
  end.

Fixpoint bytes_drop (n : nat) (s : string) : string :=
  match n, s with
  | S n', String _ s' => bytes_drop n' s'
  | _, _ => s
  end.

(** [s * n] *)
Fixpoint repeat_str (s : string) (n : nat) : string :=
  match n with
  | O => EmptyString
  | S n' => s +:+ repeat_str s n'
  end.

Definition is_nl (c : Ascii.ascii) : bool := Ascii.eqb c (Ascii.ascii_of_nat 10).

(** The lines of a text: the pieces between line feeds.  A text that ends
    with a line feed has no empty last line. *)
Fixpoint lines (s : string) : list string :=
  match s with
  | EmptyString => []
  | String c s' =>
      if is_nl c then EmptyString :: lines s'
      else match lines s' with
           | [] => [String c EmptyString]
           | l :: ls => String c l :: ls
           end
  end.

(** A text without a line feed. *)
Fixpoint one_line (s : string) : bool :=
  match s with
  | EmptyString => true
  | String c s' => negb (is_nl c) && one_line s'
  end.

(** [s.split("\n")[0]] *)
Fixpoint first_line (s : string) : string :=
  match s with
  | EmptyString => EmptyString
  | String c s' => if is_nl c then EmptyString else String c (first_line s')
  end.

(** A byte that continues a UTF-8 sequence, [10xxxxxx]. *)
Definition is_continuation (c : Ascii.ascii) : bool :=
  match c with
  | Ascii.Ascii _ _ _ _ _ _ false true => true
  | _ => false
  end.

(** [len(s)]: Python counts characters, the text here is UTF-8 bytes. *)
Fixpoint str_len (s : string) : nat :=
  match s with
  | EmptyString => O
  | String c s' => if is_continuation c then str_len s' else S (str_len s')
  end.

(** [s[:n]] *)
Fixpoint str_take (n : nat) (s : string) : string :=
  match s with
  | EmptyString => EmptyString
  | String c s' =>
      if is_continuation c then String c (str_take n s')
      else match n with
           | O => EmptyString
           | S n' => String c (str_take n' s')
           end
  end.

(** [sep.join(l)] *)
Fixpoint join (sep : string) (l : list string) : string :=
  match l with
  | [] => EmptyString
  | [x] => x
  | x :: rest => x +:+ sep +:+ join sep rest
  end.

(** Each line followed by a line feed. *)
Definition unlines (ls : list string) : string :=
  foldr (λ l acc, l +:+ nl +:+ acc) EmptyString ls.

(** Truth value of an [Optional[str]]: [None] and the empty string are false. *)
Definition truthy (v : option string) : bool :=
  match v with
  | None => false
  | Some s => negb (String.eqb s EmptyString)
  end.

(** [f"{v}"] for an [Optional[str]]. *)
Definition fmt (v : option string) : string := default "None" v.

(** ** Exceptions and results *)

Inductive exn : Type :=
  | CalledProcessError (returncode : Z)
  | FileNotFoundError
  | KeyboardInterrupt
  | AttributeError
  | TypeError
  | IndexError
  | KeyError
  | JSONDecodeError
  | SessionError (msg : string).     (* what the MCP client raises *)

(** [except Exception]: [KeyboardInterrupt] is not an [Exception]. *)
Definition is_Exception (e : exn) : bool :=
  match e with
  | KeyboardInterrupt => false
  | _ => true
  end.

(** A value with an exception in place of it. *)
Definition result (A : Type) : Type := exn + A.

(** ** JSON values, as [json.loads] returns them

    A [JObj] is a Python [dict]: the entries are in insertion order and the
    keys are pairwise distinct. *)

#[warnings="-register-all"]
Inductive json : Type :=
  | JNull
  | JBool (b : bool)
  | JInt (z : Z)
  | JFloat (literal : string)
  | JStr (s : string)
  | JArr (l : list json)
  | JObj (d : list (string * json)).

(** [d.get(k)] *)
Fixpoint dict_get (d : list (string * json)) (k : string) : option json :=
  match d with
  | [] => None
  | (k', v) :: rest => if String.eqb k' k then Some v else dict_get rest k
  end.

(** [v == s] for a string [s]. *)
Definition eq_str (v : option json) (s : string) : bool :=
  match v with
  | Some (JStr s') => String.eqb s' s
  | _ => false
  end.

(** [len(v)] *)
Definition py_len (v : json) : result nat :=
  match v with
  | JObj d => inr (length d)
  | JArr l => inr (length l)
  | JStr s => inr (str_len s)
  | _ => inl TypeError
  end.

Inductive outcome (A : Type) : Type :=
  | Returned (a : A)
  | Exited (code : Z)          (* sys.exit(code) *)
  | Raised (e : exn).
Arguments Returned {A} a.
Arguments Exited {A} code.
Arguments Raised {A} e.

(** ** The process and what it touches *)

Record spawn := Spawn {
  argv : list string;
  cwd : option string;
  child_env : option (gmap string string);   (* [None]: inherited *)
}.

Inductive run_result : Type :=
  | Completed (returncode : Z)
  | Interrupted                (* Ctrl+C while waiting for the child *)
  | NotFound.                  (* the executable is not installed *)

Inductive event : Type :=
  | Ran (p : spawn) (r : run_result)
  | Transport (url auth : string)
  | Opened
  | Ping
  | ListTools
  | CallTool (name : string).

Record world := World {
  env_file : option string;        (* test_api/.env; [None]: no such file *)
  environ : gmap string string;    (* os.environ *)
  stdout : list string;            (* what was printed, oldest first *)
  trace : list event;              (* calls out of the process, oldest first *)
}.

Definition M (A : Type) : Type := world → outcome A * world.

#[export] Instance M_ret : MRet M := λ A a w, (Returned a, w).
#[export] Instance M_bind : MBind M := λ A B f m w,
  match m w with
  | (Returned a, w') => f a w'
  | (Exited c, w') => (Exited c, w')
  | (Raised e, w') => (Raised e, w')
  end.

Definition print (s : string) : M () := λ w,
  (Returned (), World (env_file w) (environ w) (stdout w ++ [s]) (trace w)).

Definition sys_exit {A} (code : Z) : M A := λ w, (Exited code, w).

Definition raise {A} (e : exn) : M A := λ w, (Raised e, w).

Definition lift {A} (r : result A) : M A :=
  match r with
  | inl e => raise e
  | inr a => mret a
  end.

(** [try: body except ...: handler]; [handler e = None] when no clause
    matches [e]. *)
Definition try_except {A} (body : M A) (handler : exn → option (M A)) : M A :=
  λ w,
    match body w with
    | (Raised e, w') =>
        match handler e with
        | Some h => h w'
        | None => (Raised e, w')
        end
    | r => r
    end.

Definition log (ev : event) : M () := λ w,
  (Returned (), World (env_file w) (environ w) (stdout w) (trace w ++ [ev])).

Definition path_exists : M bool := λ w, (Returned (bool_decide (is_Some (env_file w))), w).

Definition write_text (content : string) : M () := λ w,
  (Returned (), World (Some content) (environ w) (stdout w) (trace w)).

Definition os_environ : M (gmap string string) := λ w, (Returned (environ w), w).

Definition os_getenv (k : string) : M (option string) := λ w,
  (Returned (environ w !! k), w).

Definition os_getenv_default (k d : string) : M string := λ w,
  (Returned (default d (environ w !! k)), w).

(** What the scripts take from outside: the [python-dotenv] reader (what it
    reads from a text depends on the environment, which it consults to expand
    [${NAME}]), the outcome of running a child, the token drawn by [secrets],
    the JSON reader, the texts of exceptions and of compound values, the
    place of the script. *)
Class Outside := {
  dotenv_values : gmap string string → string → gmap string (option string);
  run_child : spawn → run_result;
  token_urlsafe : nat → string;
  json_loads : string → result json;
  str_exn : exn → string;          (* str(e) *)
  str_json : json → string;        (* str(v) of a float, a list or a dict *)
  test_api_dir : string;           (* Path(__file__).parent *)
  project_dir : string;            (* Path(__file__).parent.parent *)
}.

Section WithOutside.
Context `{Outside}.

(** [load_dotenv(path)], [override=False]: a variable that the environment
    already has keeps its value; a key without a value sets nothing; a file
    that does not exist sets nothing. *)
Definition load_env (text : option string) (env : gmap string string)
  : gmap string string :=
  match text with
  | None => env
  | Some t => env ∪ omap id (dotenv_values env t)
  end.

(** The value that the file gives to a name, read in the environment [env]. *)
Definition file_value (env : gmap string string) (t : string) (k : string) : option string :=
  mjoin (dotenv_values env t !! k).

Definition load_dotenv : M () := λ w,
  (Returned (),
   World (env_file w) (load_env (env_file w) (environ w)) (stdout w) (trace w)).

(** [subprocess.run(argv, cwd=..., env=..., check=...)] *)
Definition subprocess_run (p : spawn) (check : bool) : M Z :=
  let r := run_child p in
  log (Ran p r) ;;
  match r with
  | Completed rc =>
      if check && negb (rc =? 0) then raise (CalledProcessError rc) else mret rc
  | Interrupted => raise KeyboardInterrupt
  | NotFound => raise FileNotFoundError
  end.

(** [f"{v}"] for a JSON value. *)
Definition format_value (v : json) : string :=
  match v with
  | JNull => "None"
  | JBool true => "True"
  | JBool false => "False"
  | JInt z => pretty z
  | JStr s => s
  | _ => str_json v
  end.

End WithOutside.

(** The status the interpreter ends with.  [sys.exit(c)] leaves the low
    eight bits of [c] (of a [c] that fits a C [long], as the return code of
    a child does): [sys.exit(-9)] ends with status 247. *)
Definition exit_status {A} (r : outcome A) : Z :=
  match r with
  | Returned _ => 0
  | Exited c => c mod 256
  | Raised KeyboardInterrupt => 130
  | Raised _ => 1
  end.

End Py.

(** * The provisioner: [start_server.py] *)

Module Provisioner.
Import Py.

(** [dict.update] with the pairs of another dictionary, in order. *)
Definition dict_update (d : gmap string string) (kvs : list (string * string))
  : gmap string string :=
  foldl (λ m kv, <[kv.1 := kv.2]> m) d kvs.

(** [{k: v for k, v in d.items() if v is not None}] *)
Definition drop_none (kvs : list (string * option string)) : list (string * string) :=
  omap (λ kv, match kv.2 with Some v => Some (kv.1, v) | None => None end) kvs.

(** The text that [update_env_with_api_key] writes. *)
Definition env_content (neo4j_uri neo4j_username neo4j_password neo4j_database api_key : string)
  : string :=
  unlines
    [ "# Neo4j Connection (from your cloud instance)";
      "NEO4J_URI=" +:+ neo4j_uri;
      "NEO4J_USERNAME=" +:+ neo4j_username;
      "NEO4J_PASSWORD=" +:+ neo4j_password;
      "NEO4J_DATABASE=" +:+ neo4j_database;
      EmptyString;
      "# Server Configuration (for testing)";
      "NEO4J_TRANSPORT=http";
      "NEO4J_MCP_SERVER_HOST=127.0.0.1";
      "NEO4J_MCP_SERVER_PORT=8001";
      "NEO4J_MCP_SERVER_PATH=/mcp/";
      EmptyString;
      "# API Key (generated for this server session)";
      "NEO4J_API_KEY=" +:+ api_key ].

(** The test and the rewriting of the address in [start_server_docker]:
    [neo4j_uri and ("localhost" in neo4j_uri or "127.0.0.1" in neo4j_uri)]. *)
Definition references_loopback (neo4j_uri : option string) : bool :=
  match neo4j_uri with
  | Some u => truthy neo4j_uri && (contains "localhost" u || contains "127.0.0.1" u)
  | None => false
  end.

Definition container_host : string := "host.docker.internal".

Definition to_container_host (u : string) : string :=
  replace "127.0.0.1" container_host (replace "localhost" container_host u).

(** The address that the container is given. *)
Definition docker_uri (neo4j_uri : option string) : option string :=
  if references_loopback neo4j_uri then to_container_host <$> neo4j_uri else neo4j_uri.

Definition image_name : string := "mcp-neo4j-cypher:dev-latest".

Definition docker_run_cmd
    (server_port server_path server_host : string)
    (neo4j_uri neo4j_username neo4j_password : option string)
    (neo4j_database api_key : string) : list string :=
  [ "docker"; "run"; "--rm";
    "-p"; server_port +:+ ":" +:+ server_port;
    "-e"; "NEO4J_URI=" +:+ fmt neo4j_uri;
    "-e"; "NEO4J_USERNAME=" +:+ fmt neo4j_username;
    "-e"; "NEO4J_PASSWORD=" +:+ fmt neo4j_password;
    "-e"; "NEO4J_DATABASE=" +:+ neo4j_database;
    "-e"; "NEO4J_TRANSPORT=http";
    "-e"; "NEO4J_MCP_SERVER_HOST=" +:+ server_host;
    "-e"; "NEO4J_MCP_SERVER_PORT=" +:+ server_port;
    "-e"; "NEO4J_MCP_SERVER_PATH=" +:+ server_path;
    "-e"; "NEO4J_API_KEY=" +:+ api_key;
    image_name ].

(** The configuration mapping of [start_server], read from the environment
    [env], and the environment of the child: [env] with the entries of the
    mapping that are not [None] laid over it. *)
Definition env_updates (env : gmap string string) (api_key : string)
  : list (string * option string) :=
  [ ("NEO4J_URI", env !! "NEO4J_URI");
    ("NEO4J_USERNAME", env !! "NEO4J_USERNAME");
    ("NEO4J_PASSWORD", env !! "NEO4J_PASSWORD");
    ("NEO4J_DATABASE", env !! "NEO4J_DATABASE");
    ("NEO4J_TRANSPORT", env !! "NEO4J_TRANSPORT");
    ("NEO4J_MCP_SERVER_HOST", env !! "NEO4J_MCP_SERVER_HOST");
    ("NEO4J_MCP_SERVER_PORT", env !! "NEO4J_MCP_SERVER_PORT");
    ("NEO4J_MCP_SERVER_PATH", env !! "NEO4J_MCP_SERVER_PATH");
    ("NEO4J_API_KEY", Some api_key) ].

Definition overlay (env : gmap string string) (api_key : string) : gmap string string :=
  dict_update env (drop_none (env_updates env api_key)).

Section WithOutside.
Context `{Outside}.

Definition generate_api_key : string := token_urlsafe 32.

(** The children that the launchers run. *)
Definition uv_run (env : gmap string string) (api_key : string) : spawn :=
  Spawn ["uv"; "run"; "mcp-neo4j-cypher"] (Some project_dir) (Some (overlay env api_key)).

Definition docker_build : spawn :=
  Spawn ["docker"; "build"; "-t"; image_name; "."] (Some project_dir) None.

Definition docker_run (env : gmap string string) (api_key : string) : spawn :=
  Spawn (docker_run_cmd (default "8001" (env !! "NEO4J_MCP_SERVER_PORT"))
           (default "/mcp/" (env !! "NEO4J_MCP_SERVER_PATH")) "0.0.0.0"
           (docker_uri (env !! "NEO4J_URI")) (env !! "NEO4J_USERNAME")
           (env !! "NEO4J_PASSWORD") (default "neo4j" (env !! "NEO4J_DATABASE")) api_key)
        None None.

Definition env_path : string := test_api_dir +:+ "/.env".

Definition update_env_with_api_key (api_key : string) : M () :=
  found ← path_exists;
  (if negb found then
     print ("✗ .env file not found at " +:+ env_path) ;;
     print "Please copy .env.sample to .env and add your Neo4j credentials" ;;
     sys_exit 1
   else mret ()) ;;
  load_dotenv ;;
  neo4j_uri ← os_getenv "NEO4J_URI";
  neo4j_username ← os_getenv "NEO4J_USERNAME";
  neo4j_password ← os_getenv "NEO4J_PASSWORD";
  neo4j_database ← os_getenv_default "NEO4J_DATABASE" "neo4j";
  (if negb (forallb truthy [neo4j_uri; neo4j_username; neo4j_password]) then
     print "✗ Missing Neo4j connection info in .env file" ;;
     print "Please ensure NEO4J_URI, NEO4J_USERNAME, and NEO4J_PASSWORD are set" ;;
     sys_exit 1
   else mret ()) ;;
  write_text (env_content (fmt neo4j_uri) (fmt neo4j_username) (fmt neo4j_password)
                neo4j_database api_key) ;;
  print "✓ Updated .env file with API key".

Definition start_server (api_key : string) : M () :=
  print "Starting MCP Neo4j Cypher server..." ;;
  load_dotenv ;;
  env ← os_environ;
  v_uri ← os_getenv "NEO4J_URI";
  v_username ← os_getenv "NEO4J_USERNAME";
  v_password ← os_getenv "NEO4J_PASSWORD";
  v_database ← os_getenv "NEO4J_DATABASE";
  v_transport ← os_getenv "NEO4J_TRANSPORT";
  v_host ← os_getenv "NEO4J_MCP_SERVER_HOST";
  v_port ← os_getenv "NEO4J_MCP_SERVER_PORT";
  v_path ← os_getenv "NEO4J_MCP_SERVER_PATH";
  let env_updates :=
    [ ("NEO4J_URI", v_uri);
      ("NEO4J_USERNAME", v_username);
      ("NEO4J_PASSWORD", v_password);
      ("NEO4J_DATABASE", v_database);
      ("NEO4J_TRANSPORT", v_transport);
      ("NEO4J_MCP_SERVER_HOST", v_host);
      ("NEO4J_MCP_SERVER_PORT", v_port);
      ("NEO4J_MCP_SERVER_PATH", v_path);
      ("NEO4J_API_KEY", Some api_key) ] in
  let env := dict_update env (drop_none env_updates) in
  print ("Server URL: http://" +:+ fmt (env !! "NEO4J_MCP_SERVER_HOST") +:+ ":"
           +:+ fmt (env !! "NEO4J_MCP_SERVER_PORT")
           +:+ fmt (env !! "NEO4J_MCP_SERVER_PATH")) ;;
  print ("API Key: " +:+ api_key) ;;
  print (nl +:+ "Press Ctrl+C to stop the server" +:+ nl) ;;
  try_except
    (subprocess_run (Spawn ["uv"; "run"; "mcp-neo4j-cypher"] (Some project_dir) (Some env))
       false ;;
     mret ())
    (λ e, match e with
          | KeyboardInterrupt => Some (print (nl +:+ nl +:+ "✓ Server stopped"))
          | _ => None
          end).

Definition start_server_docker (api_key : string) : M () :=
  print "Starting MCP Neo4j Cypher server in Docker..." ;;
  print EmptyString ;;
  load_dotenv ;;
  print ("Building Docker image: " +:+ image_name) ;;
  print ("Building from: " +:+ project_dir) ;;
  print EmptyString ;;
  try_except
    (subprocess_run (Spawn ["docker"; "build"; "-t"; image_name; "."] (Some project_dir) None)
       true ;;
     print "✓ Docker image built successfully" ;;
     print EmptyString)
    (λ e, match e with
          | CalledProcessError returncode =>
              Some (print ("✗ Failed to build Docker image (exit code "
                             +:+ pretty returncode +:+ ")") ;;
                    sys_exit 1)
          | FileNotFoundError =>
              Some (print "✗ Docker not found" ;;
                    print "Please install Docker: https://docs.docker.com/get-docker/" ;;
                    sys_exit 1)
          | _ => None
          end) ;;
  neo4j_uri ← os_getenv "NEO4J_URI";
  neo4j_username ← os_getenv "NEO4J_USERNAME";
  neo4j_password ← os_getenv "NEO4J_PASSWORD";
  neo4j_database ← os_getenv_default "NEO4J_DATABASE" "neo4j";
  neo4j_uri ←
    (if references_loopback neo4j_uri then
       let neo4j_uri := to_container_host <$> neo4j_uri in
       print ("⚠️  Modified Neo4j URI for Docker: " +:+ fmt neo4j_uri) ;;
       print EmptyString ;;
       mret neo4j_uri
     else mret neo4j_uri);
  let server_host := "0.0.0.0" in
  server_port ← os_getenv_default "NEO4J_MCP_SERVER_PORT" "8001";
  server_path ← os_getenv_default "NEO4J_MCP_SERVER_PATH" "/mcp/";
  print ("Server URL: http://127.0.0.1:" +:+ server_port +:+ server_path) ;;
  print ("API Key: " +:+ api_key) ;;
  print (nl +:+ "Press Ctrl+C to stop the server" +:+ nl) ;;
  try_except
    (subprocess_run
       (Spawn (docker_run_cmd server_port server_path server_host
                 neo4j_uri neo4j_username neo4j_password neo4j_database api_key)
              None None)
       true ;;
     mret ())
    (λ e, match e with
          | KeyboardInterrupt => Some (print (nl +:+ nl +:+ "✓ Server stopped"))
          | _ => None
          end).

(** [main], with the [--docker] flag of [parse_args] as its argument. *)
Definition main (docker : bool) : M () :=
  print (repeat_str "=" 60) ;;
  print "MCP Neo4j Cypher Server - HTTP Mode with Authentication" ;;
  print (repeat_str "=" 60) ;;
  print EmptyString ;;
  let api_key := generate_api_key in
  update_env_with_api_key api_key ;;
  if docker then start_server_docker api_key else start_server api_key.

End WithOutside.
End Provisioner.

(** * The probe: [test_auth.py] *)

Module Probe.
Import Py.

(** A tool of the server: [hasattr(tool, "description")] is [is_Some]. *)
Record tool := Tool {
  tool_name : string;
  tool_description : option string;
}.

(** An item of [result.content]: [text] is there for a text item only. *)
Record content := Content {
  content_type : string;
  content_text : option string;
}.

(** The server that the session talks to. *)
Class Server := {
  connect : result ();                       (* entering [async with Client] *)
  ping : result ();
  list_tools : result (list tool);
  call_tool : string → result (list content);
}.

(** [[k for k, v in schema_data.items() if v.get("type") == tag]]: a value
    that is no [dict] has no [get]. *)
Fixpoint keys_of_type (tag : string) (items : list (string * json))
  : result (list string) :=
  match items with
  | [] => inr []
  | (k, v) :: rest =>
      match v with
      | JObj d =>
          match keys_of_type tag rest with
          | inr ks => inr (if eq_str (dict_get d "type") tag then k :: ks else ks)
          | inl e => inl e
          end
      | _ => inl AttributeError
      end
  end.

(** [schema_data.items()] *)
Definition dict_items (schema_data : json) : result (list (string * json)) :=
  match schema_data with
  | JObj d => inr d
  | _ => inl AttributeError
  end.

Definition server_url : string := "http://127.0.0.1:8001/mcp/".

(** The entries of a group: those that are objects whose [type] is [tag]. *)
Definition has_type (tag : string) (kv : string * json) : bool :=
  match kv.2 with
  | JObj d => eq_str (dict_get d "type") tag
  | _ => false
  end.

Definition group (tag : string) (items : list (string * json)) : list (string * json) :=
  List.filter (has_type tag) items.

(** An entry that the summary can take: an object, and when it is in one of
    the two groups, one whose [properties], if any, have a length. *)
Definition summarizable (kv : string * json) : bool :=
  match kv.2 with
  | JObj d =>
      if eq_str (dict_get d "type") "node" || eq_str (dict_get d "type") "relationship"
      then match py_len (default (JObj []) (dict_get d "properties")) with
           | inr _ => true
           | inl _ => false
           end
      else true
  | _ => false
  end.

(** The lines of the list of tools, numbered from [i]. *)
Fixpoint tool_lines (i : nat) (tools : list tool) : list string :=
  match tools with
  | [] => []
  | t :: rest =>
      (pretty i +:+ ". " +:+ tool_name t)
        :: (if truthy (tool_description t)
            then ["   " +:+ first_line (fmt (tool_description t))]
            else [])
        ++ tool_lines (S i) rest
  end.

(** The schema of the specification's example. *)
Definition example_schema : json :=
  JObj [ ("Person", JObj [ ("type", JStr "node");
                           ("properties", JObj [ ("name", JObj []) ]);
                           ("count", JInt 5) ]);
         ("KNOWS", JObj [ ("type", JStr "relationship");
                          ("properties", JObj []);
                          ("count", JInt 2) ]) ].

Section WithOutside.
Context `{Outside} `{Server}.

(** The body of [for i, tool in enumerate(tools, 1)]. *)
Fixpoint print_tools (i : nat) (tools : list tool) : M () :=
  match tools with
  | [] => mret ()
  | t :: rest =>
      print (pretty i +:+ ". " +:+ tool_name t) ;;
      (if truthy (tool_description t) then
         let desc_first_line := first_line (fmt (tool_description t)) in
         print ("   " +:+ desc_first_line)
       else mret ()) ;;
      print_tools (S i) rest
  end.

(** The body of [for node_type in node_types] and of [for rel_type in
    rel_types]; [what] is ["nodes"] or ["relationships"]. *)
Fixpoint print_types (what : string) (schema_data : list (string * json))
    (types : list string) : M () :=
  match types with
  | [] => mret ()
  | type :: rest =>
      info ← match dict_get schema_data type with
             | Some (JObj info) => mret info
             | Some _ => raise AttributeError
             | None => raise KeyError
             end;
      prop_count ← lift (py_len (default (JObj []) (dict_get info "properties")));
      let count := default (JStr "?") (dict_get info "count") in
      print ("  - " +:+ type +:+ ": " +:+ pretty prop_count +:+ " properties, "
               +:+ format_value count +:+ " " +:+ what) ;;
      print_types what schema_data rest
  end.

(** The line of an entry of a group. *)
Definition entry_line (what : string) (kv : string * json) : string :=
  match kv.2 with
  | JObj d =>
      "  - " +:+ kv.1 +:+ ": "
        +:+ pretty (match py_len (default (JObj []) (dict_get d "properties")) with
                    | inr n => n
                    | inl _ => O
                    end)
        +:+ " properties, " +:+ format_value (default (JStr "?") (dict_get d "count"))
        +:+ " " +:+ what
  | _ => EmptyString
  end.

(** The lines of a group: none when the group is empty. *)
Definition group_lines (title what : string) (entries : list (string * json)) : list string :=
  match entries with
  | [] => []
  | _ => title :: (entry_line what <$> entries) ++ [EmptyString]
  end.

(** The summary of the schema, once [json.loads] has read it. *)
Definition print_summary (schema_data : json) : M () :=
  print "Neo4j Schema Summary:" ;;
  print (repeat_str "-" 60) ;;
  items ← lift (dict_items schema_data);
  node_types ← lift (keys_of_type "node" items);
  rel_types ← lift (keys_of_type "relationship" items);
  print ("Node types: " +:+ pretty (length node_types)) ;;
  print ("Relationship types: " +:+ pretty (length rel_types)) ;;
  print EmptyString ;;
  (if bool_decide (node_types ≠ []) then
     print "Node Types:" ;;
     print_types "nodes" items node_types ;;
     print EmptyString
   else mret ()) ;;
  (if bool_decide (rel_types ≠ []) then
     print "Relationship Types:" ;;
     print_types "relationships" items rel_types ;;
     print EmptyString
   else mret ()).

Definition print_schema (schema_text : string) : M () :=
  schema_data ← lift (json_loads schema_text);
  print_summary schema_data.

(** The body of [async with Client(transport) as client]. *)
Definition session : M () :=
  log Opened ;;
  lift connect ;;
  print "Testing connection..." ;;
  log Ping ;;
  lift ping ;;
  print "✓ Connection successful" ;;
  print EmptyString ;;
  print "Available Tools:" ;;
  print (repeat_str "-" 60) ;;
  log ListTools ;;
  tools ← lift list_tools;
  print_tools 1 tools ;;
  print EmptyString ;;
  print "Calling get_neo4j_schema tool..." ;;
  print (repeat_str "-" 60) ;;
  log (CallTool "get_neo4j_schema") ;;
  result_content ← lift (call_tool "get_neo4j_schema");
  print "✓ Tool call successful" ;;
  first ← match result_content with
          | c :: _ => mret c
          | [] => raise IndexError
          end;
  print ("  Result type: " +:+ content_type first) ;;
  print EmptyString ;;
  (if bool_decide (result_content ≠ []) && bool_decide (0 < length result_content)%nat then
     schema_text ← match content_text first with
                   | Some t => mret t
                   | None => raise AttributeError
                   end;
     print_schema schema_text
   else mret ()) ;;
  print (repeat_str "=" 60) ;;
  print "✓ Client demo completed successfully" ;;
  print (repeat_str "=" 60).

Definition main : M () :=
  print (repeat_str "=" 60) ;;
  print "MCP Neo4j Cypher Client - Authentication Demo" ;;
  print (repeat_str "=" 60) ;;
  print EmptyString ;;
  found ← path_exists;
  if negb found then
    print "✗ .env file not found" ;;
    print "Please run start_server.py first to generate API key"
  else
    load_dotenv ;;
    api_key ← os_getenv "NEO4J_API_KEY";
    if negb (truthy api_key) then
      print "✗ NEO4J_API_KEY not found in .env" ;;
      print "Please run start_server.py first to generate API key"
    else
      let api_key := fmt api_key in
      print ("✓ Loaded API key from .env: " +:+ str_take 16 api_key +:+ "...") ;;
      print EmptyString ;;
      log (Transport server_url api_key) ;;
      print ("✓ Configured transport: " +:+ server_url) ;;
      print EmptyString ;;
      try_except session
        (λ e, if is_Exception e then
                Some (print ("✗ Error: " +:+ str_exn e) ;;
                      print EmptyString ;;
                      print "Troubleshooting:" ;;
                      print "1. Ensure start_server.py is running in another terminal" ;;
                      print "2. Check that server is listening on http://127.0.0.1:8001/mcp/" ;;
                      print "3. Verify API key matches between .env and running server" ;;
                      raise e)
              else None).

Definition script_name : string := "test_auth.py".

Definition docker_cmd (api_key : string) : list string :=
  [ "docker"; "run"; "--rm"; "-i"; "--network=host";
    "-v"; test_api_dir +:+ ":/app";
    "-w"; "/app";
    "-e"; "NEO4J_API_KEY=" +:+ api_key;
    "python:3.11-slim"; "sh"; "-c";
    "pip install -q fastmcp python-dotenv && python " +:+ script_name ].

Definition run_in_docker : M () :=
  print (repeat_str "=" 60) ;;
  print "Running MCP Client in Docker Container" ;;
  print (repeat_str "=" 60) ;;
  print EmptyString ;;
  found ← path_exists;
  (if negb found then
     print "✗ .env file not found" ;;
     print "Please run start_server.py first to generate API key" ;;
     sys_exit 1
   else mret ()) ;;
  load_dotenv ;;
  api_key ← os_getenv "NEO4J_API_KEY";
  (if negb (truthy api_key) then
     print "✗ NEO4J_API_KEY not found in .env" ;;
     print "Please run start_server.py first to generate API key" ;;
     sys_exit 1
   else mret ()) ;;
  let api_key := fmt api_key in
  print ("✓ Loaded API key from .env: " +:+ str_take 16 api_key +:+ "...") ;;
  print EmptyString ;;
  print "Starting Docker container..." ;;
  print ("Command: " +:+ join " " (take 8 (docker_cmd api_key))
           +:+ " ... python:3.11-slim ...") ;;
  print EmptyString ;;
  try_except
    (returncode ← subprocess_run (Spawn (docker_cmd api_key) None None) true;
     sys_exit returncode)
    (λ e, match e with
          | CalledProcessError returncode =>
              Some (print (nl +:+ "✗ Docker execution failed with exit code "
                             +:+ pretty returncode) ;;
                    print (nl +:+ "Troubleshooting:") ;;
                    print "1. Ensure Docker is installed and running" ;;
                    print "2. Ensure the MCP server is running (start_server.py)" ;;
                    print "3. Check that the .env file contains a valid API key" ;;
                    sys_exit returncode)
          | FileNotFoundError =>
              Some (print "✗ Docker not found" ;;
                    print "Please install Docker: https://docs.docker.com/get-docker/" ;;
                    sys_exit 1)
          | _ => None
          end).

(** The script, with the [--docker] flag of [parse_args] as its argument. *)
Definition script (docker : bool) : M () :=
  if docker then run_in_docker else main.

End WithOutside.
End Probe.

(** * A reader of plain [.env] files and a sample outside

    [Plain.dotenv_values] reads the files made of blank lines, comment lines
    and [NAME=value] lines, the name made of letters, digits and underscores,
    the value without quote, blank, [#], [$] or backslash; on these it is
    what [python-dotenv] reads, whatever the environment. *)

Module Plain.
Import Py.

Fixpoint split_eq (s : string) : option (string * string) :=
  match s with
  | EmptyString => None
  | String c s' =>
      if Ascii.eqb c "="%char then Some (EmptyString, s')
      else (λ kv : string * string, (String c kv.1, kv.2)) <$> split_eq s'
  end.

Definition binding_of_line (l : string) : option (string * option string) :=
  match l with
  | EmptyString => None
  | String c _ =>
      if Ascii.eqb c "#"%char then None
      else match split_eq l with
           | Some (k, v) => Some (k, Some v)
           | None => Some (l, None)
           end
  end.

(** A later binding of a name replaces an earlier one. *)
Definition dotenv_values (text : string) : gmap string (option string) :=
  list_to_map (reverse (omap binding_of_line (lines text))).

(** The value that a plain file gives to a name. *)
Definition value_of (text : string) (k : string) : option string :=
  mjoin (dotenv_values text !! k).

(** An outside where children behave as [run] says. *)
Definition outside (run : spawn → run_result) : Outside := {|
  Py.dotenv_values := λ _, dotenv_values;
  run_child := run;
  token_urlsafe := λ _, "Zm9vYmFyYmF6cXV4Zm9vYmFyYmF6cXV4Zm9vYmFyYmE";
  json_loads := λ _, inl JSONDecodeError;
  str_exn := λ _, "error";
  str_json := λ _, "...";
  test_api_dir := "/srv/mcp-neo4j-cypher/test_api";
  project_dir := "/srv/mcp-neo4j-cypher";
|}.

(** Every child runs to the end and succeeds. *)
Definition quiet : Outside := outside (λ _, Completed 0).

(** A configuration file as [.env.sample] has it, filled in. *)
Definition env_sample : string :=
  unlines
    [ "# Neo4j Connection";
      "NEO4J_URI=bolt://db.example.com:7687";
      "NEO4J_USERNAME=neo4j";
      "NEO4J_PASSWORD=s3cret";
      "NEO4J_MCP_SERVER_PORT=9000";
      "NEO4J_API_KEY=previous-key" ].

(** The same without the address of the datastore. *)
Definition env_no_uri : string :=
  unlines
    [ "# Neo4j Connection";
      "NEO4J_USERNAME=neo4j";
      "NEO4J_PASSWORD=s3cret" ].

(** A file that the provisioner wrote, the key taken out. *)
Definition env_no_key : string :=
  unlines
    [ "NEO4J_URI=bolt://db.example.com:7687";
      "NEO4J_USERNAME=neo4j";
      "NEO4J_PASSWORD=s3cret" ].

(** A server that refuses the session. *)
Definition refusing : Probe.Server := {|
  Probe.connect := inl (SessionError "401 Unauthorized");
  Probe.ping := inr ();
  Probe.list_tools := inr [];
  Probe.call_tool := λ _, inr [];
|}.

Definition start (file : option string) (env : gmap string string) : world :=
  World file env [] [].

(** ** The plain files *)

(** The characters of a name: the letters, the digits and the underscore. *)
Definition name_char (c : Ascii.ascii) : bool :=
  let n := Ascii.N_of_ascii c in
  ((65 <=? n) && (n <=? 90) || (97 <=? n) && (n <=? 122) ||
   (48 <=? n) && (n <=? 57) || (n =? 95))%N.

(** The characters of a value that is written and read back as it is: the
    printable ASCII characters other than the blank, the two quotes, [#],
    [$] and the backslash. *)
Definition value_char (c : Ascii.ascii) : bool :=
  let n := Ascii.N_of_ascii c in
  ((33 <=? n) && (n <=? 126) &&
   negb ((n =? 34) || (n =? 35) || (n =? 36) || (n =? 39) || (n =? 92)))%N.

(** The characters of a comment: the printable ASCII characters and the
    blank. *)
Definition comment_char (c : Ascii.ascii) : bool :=
  let n := Ascii.N_of_ascii c in ((32 <=? n) && (n <=? 126))%N.

Fixpoint all_chars (p : Ascii.ascii → bool) (s : string) : bool :=
  match s with
  | EmptyString => true
  | String c s' => p c && all_chars p s'
  end.

Definition plain_name (k : string) : bool :=
  negb (String.eqb k EmptyString) && all_chars name_char k.

Definition plain_value (v : string) : bool := all_chars value_char v.

(** A plain line: blank, a comment from its first character on, or
    [NAME=value] with nothing around the name, the sign and the value. *)
Definition plain_line (l : string) : bool :=
  match l with
  | EmptyString => true
  | String c rest =>
      if Ascii.eqb c "#"%char then all_chars comment_char rest
      else match split_eq l with
           | Some (k, v) => plain_name k && plain_value v
           | None => false
           end
  end.

Definition plain_text (t : string) : bool := forallb plain_line (lines t).

(** The reader of the program reads the plain files as [dotenv_values]
    does.  [python-dotenv] does: on a plain file none of its other rules
    (quotes, escapes, inline comments, [export], blanks that are stripped,
    carriage returns, [${NAME}]) has anything to apply to. *)
Definition reads_plain `{Outside} : Prop :=
  ∀ env t, plain_text t = true → Py.dotenv_values env t = dotenv_values t.

End Plain.

(** * A reader that knows quotes and comments

    Two more rules of [python-dotenv], for what the provisioner does to a
    value that is not plain: a value between quotes is what is between them,
    and a value without quotes ends where blanks followed by [#] begin, the
    blanks at its end taken off.  The other rules of the library (escapes,
    [export], blanks around the sign, carriage returns, [${NAME}]) are not
    here: the files read with it below have nothing for them to apply to. *)

Module Quoting.
Import Py.

Definition dq : string := String (Ascii.ascii_of_nat 34) EmptyString.

Definition is_blank (c : Ascii.ascii) : bool :=
  Ascii.eqb c " "%char || Ascii.eqb c (Ascii.ascii_of_nat 9).

(** The text up to the quote [q]. *)
Fixpoint until_quote (q : Ascii.ascii) (s : string) : string :=
  match s with
  | EmptyString => EmptyString
  | String c s' => if Ascii.eqb c q then EmptyString else String c (until_quote q s')
  end.

(** Blanks, then [#]. *)
Fixpoint comment_ahead (s : string) : bool :=
  match s with
  | EmptyString => false
  | String c s' => if is_blank c then comment_ahead s' else Ascii.eqb c "#"%char
  end.

Fixpoint cut_comment (s : string) : string :=
  match s with
  | EmptyString => EmptyString
  | String c s' =>
      if is_blank c && comment_ahead s then EmptyString else String c (cut_comment s')
  end.

Fixpoint rstrip (s : string) : string :=
  match s with
  | EmptyString => EmptyString
  | String c s' =>
      match rstrip s' with
      | EmptyString => if is_blank c then EmptyString else String c EmptyString
      | r => String c r
      end
  end.

Definition value_of_text (v : string) : string :=
  match v with
  | String c v' =>
      if Ascii.eqb c (Ascii.ascii_of_nat 34) || Ascii.eqb c "'"%char
      then until_quote c v'
      else rstrip (cut_comment v)
  | EmptyString => EmptyString
  end.

Definition binding_of_line (l : string) : option (string * option string) :=
  match Plain.binding_of_line l with
  | Some (k, Some v) => Some (k, Some (value_of_text v))
  | b => b
  end.

Definition dotenv_values (text : string) : gmap string (option string) :=
  list_to_map (reverse (omap binding_of_line (lines text))).

Definition outside : Outside := {|
  Py.dotenv_values := λ _, dotenv_values;
  run_child := λ _, Completed 0;
  token_urlsafe := λ _, "Zm9vYmFyYmF6cXV4Zm9vYmFyYmF6cXV4Zm9vYmFyYmE";
  json_loads := λ _, inl JSONDecodeError;
  str_exn := λ _, "error";
  str_json := λ _, "...";
  test_api_dir := "/srv/mcp-neo4j-cypher/test_api";
  project_dir := "/srv/mcp-neo4j-cypher";
|}.

(** A file whose password needs its quotes. *)
Definition env_quoted : string :=
  unlines
    [ "NEO4J_URI=bolt://db.example.com:7687";
      "NEO4J_USERNAME=neo4j";
      "NEO4J_PASSWORD=" +:+ dq +:+ "p4ss #1" +:+ dq ].

End Quoting.

(** * Vocabulary of the further properties *)

Module Frame.
Import Py.

(** What a step leaves as it was, between the world before and the world
    after. *)
Definition same_file (w w' : world) : Prop := env_file w' = env_file w.

Definition same_trace (w w' : world) : Prop := trace w' = trace w.

(** The variables that were set are still set, to the same values. *)
Definition env_grows (w w' : world) : Prop :=
  ∀ k v, environ w !! k = Some v → environ w' !! k = Some v.

(** What was printed is still there, in front. *)
Definition out_grows (w w' : world) : Prop := stdout w `prefix_of` stdout w'.

(** Reading only: the file as it was, the environment grown. *)
Definition read_only (w w' : world) : Prop := same_file w w' ∧ env_grows w w'.

(** A step keeps [R] when every run of it relates the world before to the
    world after, however it ends. *)
Definition keeps {A} (R : world → world → Prop) (m : M A) : Prop :=
  ∀ w, R w (m w).2.

(** A step that never ends by [sys.exit]. *)
Definition never_exits {A} (m : M A) : Prop := ∀ w c, (m w).1 ≠ Exited c.

(** The calls of a session, in their order. *)
Definition session_calls : list event :=
  [Opened; Ping; ListTools; CallTool "get_neo4j_schema"].

(** An entry whose [properties], if any, have a length. *)
Definition sized (kv : string * json) : bool :=
  match kv.2 with
  | JObj d =>
      match py_len (default (JObj []) (dict_get d "properties")) with
      | inr _ => true
      | inl _ => false
      end
  | _ => false
  end.

Definition is_object (kv : string * json) : bool :=
  match kv.2 with
  | JObj _ => true
  | _ => false
  end.

(** The characters of a text. *)
Fixpoint chars (s : string) : list Ascii.ascii :=
  match s with
  | EmptyString => []
  | String c s' => c :: chars s'
  end.

(** The calls that a session makes to a server: each one only when the one
    before it was answered. *)
Definition calls_made `{Probe.Server} : list event :=
  match Probe.connect with
  | inl _ => [Opened]
  | inr _ =>
      match Probe.ping with
      | inl _ => [Opened; Ping]
      | inr _ =>
          match Probe.list_tools with
          | inl _ => [Opened; Ping; ListTools]
          | inr _ => session_calls
          end
      end
  end.

(** The lines that the probe prints before it raises [e] again. *)
Definition troubleshooting `{Outside} (e : exn) : list string :=
  [ "✗ Error: " +:+ str_exn e;
    EmptyString;
    "Troubleshooting:";
    "1. Ensure start_server.py is running in another terminal";
    "2. Check that server is listening on http://127.0.0.1:8001/mcp/";
    "3. Verify API key matches between .env and running server" ].

(** The names that [start_server] reads from the environment. *)
Definition read_names : list string :=
  [ "NEO4J_URI"; "NEO4J_USERNAME"; "NEO4J_PASSWORD"; "NEO4J_DATABASE"; "NEO4J_TRANSPORT";
    "NEO4J_MCP_SERVER_HOST"; "NEO4J_MCP_SERVER_PORT"; "NEO4J_MCP_SERVER_PATH" ].

End Frame.

(** * A sample server that answers *)

Module Sample.
Import Py.

(** An outside like [Plain.quiet] whose [json.loads] reads the schema of the
    example. *)
Definition parsing : Outside := {|
  Py.dotenv_values := λ _, Plain.dotenv_values;
  run_child := λ _, Completed 0;
  token_urlsafe := λ _, "Zm9vYmFyYmF6cXV4Zm9vYmFyYmF6cXV4Zm9vYmFyYmE";
  json_loads := λ _, inr Probe.example_schema;
  str_exn := λ _, "error";
  str_json := λ _, "...";
  test_api_dir := "/srv/mcp-neo4j-cypher/test_api";
  project_dir := "/srv/mcp-neo4j-cypher";
|}.

(** A server that accepts the session and answers every call. *)
Definition answering : Probe.Server := {|
  Probe.connect := inr ();
  Probe.ping := inr ();
  Probe.list_tools :=
    inr [ Probe.Tool "get_neo4j_schema" (Some "Returns the schema of the graph");
          Probe.Tool "read_neo4j_cypher" None ];
  Probe.call_tool := λ _, inr [ Probe.Content "text" (Some "schema") ];
|}.

(** A file that the provisioner wrote in an earlier run. *)
Definition env_written : string :=
  Provisioner.env_content "bolt://db.example.com:7687" "neo4j" "s3cret" "movies" "previous-key".

End Sample.

(** * Properties *)

(** ** Running the steps *)

Module Run.
Import Py.

Lemma bind_run {A B} (m : M A) (f : A → M B) (w : world) :
  (m ≫= f) w =
    match m w with
    | (Returned a, w') => f a w'
    | (Exited c, w') => (Exited c, w')
    | (Raised e, w') => (Raised e, w')
    end.
Proof. reflexivity. Qed.

Lemma truthy_Some (v : option string) :
  truthy v = true ↔ ∃ s, v = Some s ∧ s ≠ EmptyString.
Proof.
  destruct v as [s|]; simpl.
  - rewrite negb_true_iff. split.
    + intros E. exists s. split; [done|]. intros ->. discriminate.
    + intros (s' & [= <-] & Hne). by apply String.eqb_neq.
  - split; [discriminate|]. by intros (s & ? & _).
Qed.

Lemma truthy_true (s : string) : s ≠ EmptyString → truthy (Some s) = true.
Proof. intros Hs. apply truthy_Some. by exists s. Qed.

(** ** Occurrences and replacement *)

Lemma prefix_empty (sub : string) : String.prefix sub EmptyString = true → sub = EmptyString.
Proof. by destruct sub. Qed.

Lemma replace_go_skip (old new : string) (k : nat) (s : string) :
  replace_go old new k s = replace_go old new O (bytes_drop k s).
Proof.
  revert k. induction s as [|c s IH]; intros [|k]; try reflexivity.
  cbn [replace_go bytes_drop]. apply IH.
Qed.

(** [replace] rewrites the first occurrence and goes on after it. *)
Lemma replace_find (old new s : string) (n : nat) :
  old ≠ EmptyString →
  find old s = Some n →
  replace old new s =
    bytes_take n s +:+ new +:+ replace old new (bytes_drop (n + String.length old) s).
Proof.
  intros Hold. unfold replace. revert n.
  induction s as [|c s IH]; intros n; cbn [find replace_go].
  - destruct (String.prefix old EmptyString) eqn:E; [|done].
    by apply prefix_empty in E.
  - destruct (String.prefix old (String c s)) eqn:E.
    + intros [= <-]. rewrite replace_go_skip.
      destruct old as [|a old']; [done|]. reflexivity.
    + destruct (find old s) as [m|]; [|done]. intros [= <-].
      rewrite (IH m eq_refl). reflexivity.
Qed.

(** A text where [old] does not occur is left as it is. *)
Lemma replace_absent (old new s : string) :
  find old s = None → replace old new s = s.
Proof.
  unfold replace. induction s as [|c s IH]; cbn [find replace_go]; [done|].
  destruct (String.prefix old (String c s)); [done|].
  destruct (find old s); [done|]. intros _. by rewrite IH.
Qed.

Lemma contains_find (sub s : string) :
  contains sub s = bool_decide (is_Some (find sub s)).
Proof.
  induction s as [|c s IH]; cbn [contains find].
  - by destruct (String.prefix sub EmptyString).
  - destruct (String.prefix sub (String c s)); [done|].
    rewrite IH. cbn [orb]. by destruct (find sub s).
Qed.

(** ** Lines *)

Lemma lines_cons (l rest : string) :
  one_line l = true → lines (l +:+ nl +:+ rest) = l :: lines rest.
Proof.
  induction l as [|c l IH]; cbn [one_line]; intros Hl; [reflexivity|].
  apply andb_true_iff in Hl as [Hc Hl]. apply negb_true_iff in Hc.
  change (lines (String c (l +:+ nl +:+ rest)) = String c l :: lines rest).
  cbn [lines]. rewrite Hc. by rewrite (IH Hl).
Qed.

Lemma one_line_app (a b : string) : one_line (a +:+ b) = one_line a && one_line b.
Proof.
  induction a as [|c a IH]; [reflexivity|].
  change (one_line (String c (a +:+ b)) = one_line (String c a) && one_line b).
  cbn [one_line]. by rewrite IH, andb_assoc.
Qed.

(** A text written line by line is read back line by line. *)
Lemma lines_unlines (ls : list string) :
  forallb one_line ls = true → lines (unlines ls) = ls.
Proof.
  induction ls as [|l ls IH]; cbn [forallb]; intros Hls; [reflexivity|].
  apply andb_true_iff in Hls as [Hl Hls].
  cbn [unlines foldr]. rewrite lines_cons by done.
  f_equal. by apply IH.
Qed.

(** Unfolds the steps of a run and computes them. *)
Ltac run :=
  unfold path_exists, load_dotenv, os_getenv, os_getenv_default, os_environ, write_text,
    print, sys_exit, raise, log, lift, try_except, subprocess_run;
  unfold mbind, M_bind, mret, M_ret;
  cbn -[lookup union app forallb load_env pretty String.append repeat_str unlines truthy
        Provisioner.dict_update Provisioner.drop_none Provisioner.docker_run_cmd
        Provisioner.references_loopback Provisioner.to_container_host Z.eqb].

Lemma print_run (s : string) (w : world) :
  print s w = (Returned (), World (env_file w) (environ w) (stdout w ++ [s]) (trace w)).
Proof. reflexivity. Qed.

Lemma log_run (ev : event) (w : world) :
  log ev w = (Returned (), World (env_file w) (environ w) (stdout w) (trace w ++ [ev])).
Proof. reflexivity. Qed.

Lemma lift_run {A} (a : A) (w : world) : lift (inr a) w = (Returned a, w).
Proof. reflexivity. Qed.

Lemma ret_run {A} (a : A) (w : world) : mret (M := M) a w = (Returned a, w).
Proof. reflexivity. Qed.

(** One step of a run: the first action of a sequence is carried out. *)
Ltac step :=
  rewrite bind_run;
  first [ rewrite print_run | rewrite log_run | rewrite lift_run | rewrite ret_run ];
  cbn [env_file environ stdout trace].

(** Brings the printed lines to one list. *)
Ltac flat := rewrite <- ?app_assoc; cbn [app].

End Run.

Module ProvisionerSpec.
Import Py Provisioner Run.

(** The file that the provisioner writes, read as a plain file, gives back
    the values that were put in it, when none of them has a line feed. *)
Lemma plain_reads_back (uri user pw db key : string) :
  forallb one_line [uri; user; pw; db; key] = true →
  let t := env_content uri user pw db key in
  Plain.value_of t "NEO4J_URI" = Some uri ∧
  Plain.value_of t "NEO4J_USERNAME" = Some user ∧
  Plain.value_of t "NEO4J_PASSWORD" = Some pw ∧
  Plain.value_of t "NEO4J_DATABASE" = Some db ∧
  Plain.value_of t "NEO4J_TRANSPORT" = Some "http" ∧
  Plain.value_of t "NEO4J_MCP_SERVER_HOST" = Some "127.0.0.1" ∧
  Plain.value_of t "NEO4J_MCP_SERVER_PORT" = Some "8001" ∧
  Plain.value_of t "NEO4J_MCP_SERVER_PATH" = Some "/mcp/" ∧
  Plain.value_of t "NEO4J_API_KEY" = Some key.
Proof.
  intros Hall t. rewrite forallb_forall in Hall.
  assert (Hone : ∀ v, v ∈ [uri; user; pw; db; key] → one_line v = true).
  { intros v Hv. by apply Hall, list_elem_of_In. }
  unfold Plain.value_of, Plain.dotenv_values. subst t. unfold env_content.
  rewrite lines_unlines.
  - split_and!; by vm_compute.
  - cbn [forallb]. rewrite !andb_true_iff.
    split_and!; try reflexivity;
      (rewrite one_line_app; apply andb_true_iff; split;
       [reflexivity|apply Hone; repeat constructor]).
Qed.

(** ** Plain files *)

Lemma split_eq_binding (k v : string) :
  Plain.all_chars Plain.name_char k = true → Plain.split_eq (k +:+ "=" +:+ v) = Some (k, v).
Proof.
  induction k as [|c k IH]; [done|].
  cbn [Plain.all_chars]. intros [Hc Hk]%andb_true_iff.
  change (String c k +:+ ?r) with (String c (k +:+ r)). cbn [Plain.split_eq].
  destruct (Ascii.eqb c "=") eqn:E.
  - apply Ascii.eqb_eq in E as ->. by vm_compute in Hc.
  - by rewrite (IH Hk).
Qed.

Lemma plain_value_one_line (v : string) : Plain.plain_value v = true → one_line v = true.
Proof.
  induction v as [|c v IH]; [done|].
  unfold Plain.plain_value. cbn [Plain.all_chars one_line]. intros [Hc Hv]%andb_true_iff.
  rewrite (IH Hv), andb_true_r. unfold is_nl.
  destruct (Ascii.eqb c _) eqn:E; [|done].
  apply Ascii.eqb_eq in E as ->. by vm_compute in Hc.
Qed.

(** A line that the provisioner writes for a name is plain when the value
    is. *)
Lemma plain_line_binding (k v : string) :
  Plain.plain_name k = true → Plain.plain_value v = true → Plain.plain_line (k +:+ "=" +:+ v) = true.
Proof.
  unfold Plain.plain_name. intros [Hne Hk]%andb_true_iff Hv.
  destruct k as [|c k]; [done|].
  pose proof (split_eq_binding (String c k) v Hk) as Hsplit.
  change (String c k +:+ ?r) with (String c (k +:+ r)) in *.
  unfold Plain.plain_line. rewrite Hsplit.
  cbn [Plain.all_chars] in Hk. apply andb_true_iff in Hk as [Hc Hk].
  destruct (Ascii.eqb c "#") eqn:E.
  - apply Ascii.eqb_eq in E as ->. by vm_compute in Hc.
  - unfold Plain.plain_name. cbn [String.eqb negb Plain.all_chars]. by rewrite Hc, Hk, Hv.
Qed.

(** The file that the provisioner writes is plain when the five values that
    vary are. *)
Lemma env_content_plain (uri user pw db key : string) :
  forallb Plain.plain_value [uri; user; pw; db; key] = true →
  Plain.plain_text (env_content uri user pw db key) = true.
Proof.
  cbn [forallb]. rewrite !andb_true_iff. intros (Huri & Huser & Hpw & Hdb & Hkey & _).
  unfold Plain.plain_text, env_content. rewrite lines_unlines.
  - cbn [forallb]. rewrite !andb_true_iff.
    split_and!; try reflexivity;
      match goal with
      | |- Plain.plain_line (?k +:+ ?v) = true =>
          let k' := eval vm_compute in (bytes_take (Nat.pred (String.length k)) k) in
          change (Plain.plain_line (k' +:+ "=" +:+ v) = true);
          by apply plain_line_binding
      end.
  - cbn [forallb]. rewrite !andb_true_iff.
    split_and!; try reflexivity; rewrite one_line_app; apply andb_true_iff;
      (split; [reflexivity|by apply plain_value_one_line]).
Qed.

(** ** The reader that knows quotes, on plain files *)

Lemma value_char_plain (c : Ascii.ascii) :
  Plain.value_char c = true →
  Quoting.is_blank c = false ∧
  Ascii.eqb c (Ascii.ascii_of_nat 34) = false ∧ Ascii.eqb c "'" = false.
Proof.
  intros Hc. split_and!.
  - unfold Quoting.is_blank. apply orb_false_iff. split;
      (destruct (Ascii.eqb c _) eqn:E; [|done]; apply Ascii.eqb_eq in E as ->;
       by vm_compute in Hc).
  - destruct (Ascii.eqb c _) eqn:E; [|done]. apply Ascii.eqb_eq in E as ->.
    by vm_compute in Hc.
  - destruct (Ascii.eqb c _) eqn:E; [|done]. apply Ascii.eqb_eq in E as ->.
    by vm_compute in Hc.
Qed.

Lemma cut_comment_plain (v : string) :
  Plain.plain_value v = true → Quoting.cut_comment v = v.
Proof.
  induction v as [|c v IH]; [done|].
  unfold Plain.plain_value. cbn [Plain.all_chars]. intros [Hc Hv]%andb_true_iff.
  apply value_char_plain in Hc as (Hb & _).
  cbn [Quoting.cut_comment]. rewrite Hb. cbn [andb]. by rewrite (IH Hv).
Qed.

Lemma rstrip_plain (v : string) : Plain.plain_value v = true → Quoting.rstrip v = v.
Proof.
  induction v as [|c v IH]; [done|].
  unfold Plain.plain_value. cbn [Plain.all_chars]. intros [Hc Hv]%andb_true_iff.
  apply value_char_plain in Hc as (Hb & _).
  cbn [Quoting.rstrip]. rewrite (IH Hv), Hb. by destruct v.
Qed.

(** A plain value is read as it is written. *)
Lemma value_of_text_plain (v : string) :
  Plain.plain_value v = true → Quoting.value_of_text v = v.
Proof.
  intros Hv. destruct v as [|c v]; [done|].
  pose proof Hv as Hv'. unfold Plain.plain_value in Hv'. cbn [Plain.all_chars] in Hv'.
  apply andb_true_iff in Hv' as [Hc _].
  apply value_char_plain in Hc as (_ & Hd & Hs).
  unfold Quoting.value_of_text. rewrite Hd, Hs. cbn [orb].
  by rewrite cut_comment_plain, rstrip_plain.
Qed.

Lemma binding_of_line_plain (l : string) :
  Plain.plain_line l = true → Quoting.binding_of_line l = Plain.binding_of_line l.
Proof.
  unfold Quoting.binding_of_line, Plain.binding_of_line, Plain.plain_line.
  destruct l as [|c l]; [done|].
  destruct (Ascii.eqb c "#"); [done|].
  destruct (Plain.split_eq (String c l)) as [[k v]|]; [|done].
  intros [_ Hv]%andb_true_iff. by rewrite value_of_text_plain.
Qed.

(** The rules for quotes and comments have nothing to apply to in a plain
    file: this reader, too, reads it as the plain one does. *)
Lemma quoting_reads_plain : Plain.reads_plain (H := Quoting.outside).
Proof.
  intros env t Ht. cbn. unfold Quoting.dotenv_values, Plain.dotenv_values.
  do 2 f_equal. unfold Plain.plain_text in Ht.
  induction (lines t) as [|l ls IH]; [done|].
  cbn [forallb] in Ht. apply andb_true_iff in Ht as [Hl Hls].
  cbn [omap list_omap]. rewrite (binding_of_line_plain l Hl).
  fold (omap Quoting.binding_of_line ls) (omap Plain.binding_of_line ls).
  by rewrite (IH Hls).
Qed.

Section WithOutside.
Context `{Outside}.

(** What a run of [update_env_with_api_key] does, case by case. *)
Lemma update_env_run (api_key : string) (w : world) :
  update_env_with_api_key api_key w =
    match env_file w with
    | None =>
        (Exited 1,
         World None (environ w)
           (stdout w ++ ["✗ .env file not found at " +:+ env_path;
                         "Please copy .env.sample to .env and add your Neo4j credentials"])
           (trace w))
    | Some t =>
        let env := load_env (Some t) (environ w) in
        if forallb truthy [env !! "NEO4J_URI"; env !! "NEO4J_USERNAME"; env !! "NEO4J_PASSWORD"]
        then
          (Returned (),
           World (Some (env_content (fmt (env !! "NEO4J_URI")) (fmt (env !! "NEO4J_USERNAME"))
                          (fmt (env !! "NEO4J_PASSWORD"))
                          (default "neo4j" (env !! "NEO4J_DATABASE")) api_key))
             env (stdout w ++ ["✓ Updated .env file with API key"]) (trace w))
        else
          (Exited 1,
           World (Some t) env
             (stdout w ++ ["✗ Missing Neo4j connection info in .env file";
                           "Please ensure NEO4J_URI, NEO4J_USERNAME, and NEO4J_PASSWORD are set"])
             (trace w))
    end.
Proof.
  destruct w as [[t|] env out tr]; unfold update_env_with_api_key; run.
  - destruct (forallb truthy _) eqn:E; run; flat; reflexivity.
  - flat. reflexivity.
Qed.

(** What a run of [start_server] does, by the outcome of the child. *)
Lemma start_server_run (api_key : string) (w : world) :
  start_server api_key w =
    let env := load_env (env_file w) (environ w) in
    let child := overlay env api_key in
    let w' :=
      World (env_file w) env
        (stdout w ++
           ["Starting MCP Neo4j Cypher server...";
            "Server URL: http://" +:+ fmt (child !! "NEO4J_MCP_SERVER_HOST") +:+ ":"
              +:+ fmt (child !! "NEO4J_MCP_SERVER_PORT")
              +:+ fmt (child !! "NEO4J_MCP_SERVER_PATH");
            "API Key: " +:+ api_key;
            nl +:+ "Press Ctrl+C to stop the server" +:+ nl])
        (trace w ++ [Ran (uv_run env api_key) (run_child (uv_run env api_key))]) in
    match run_child (uv_run env api_key) with
    | Completed _ => (Returned (), w')
    | Interrupted =>
        (Returned (),
         World (env_file w') (environ w')
           (stdout w' ++ [nl +:+ nl +:+ "✓ Server stopped"]) (trace w'))
    | NotFound => (Raised FileNotFoundError, w')
    end.
Proof.
  destruct w as [f env out tr]; unfold start_server; run.
  unfold uv_run, overlay, env_updates.
  destruct (run_child _); run; flat; reflexivity.
Qed.

(** What a run of [start_server_docker] does, by the outcomes of the build
    and of the container. *)
Lemma start_server_docker_run (api_key : string) (w : world) :
  start_server_docker api_key w =
    let env := load_env (env_file w) (environ w) in
    let uri := env !! "NEO4J_URI" in
    let out0 : list string :=
      (stdout w ++
         ["Starting MCP Neo4j Cypher server in Docker..."; EmptyString;
          "Building Docker image: " +:+ image_name;
          "Building from: " +:+ project_dir; EmptyString])%list in
    let tr1 : list event := (trace w ++ [Ran docker_build (run_child docker_build)])%list in
    let out1 : list string :=
      (out0 ++ ["✓ Docker image built successfully"; EmptyString] ++
         (if references_loopback uri
          then ["⚠️  Modified Neo4j URI for Docker: " +:+ fmt (docker_uri uri); EmptyString]
          else []) ++
         ["Server URL: http://127.0.0.1:" +:+ default "8001" (env !! "NEO4J_MCP_SERVER_PORT")
            +:+ default "/mcp/" (env !! "NEO4J_MCP_SERVER_PATH");
          "API Key: " +:+ api_key;
          nl +:+ "Press Ctrl+C to stop the server" +:+ nl])%list in
    let tr2 : list event :=
      (tr1 ++ [Ran (docker_run env api_key) (run_child (docker_run env api_key))])%list in
    match run_child docker_build with
    | NotFound =>
        (Exited 1,
         World (env_file w) env
           (out0 ++ ["✗ Docker not found";
                     "Please install Docker: https://docs.docker.com/get-docker/"]) tr1)
    | Interrupted => (Raised KeyboardInterrupt, World (env_file w) env out0 tr1)
    | Completed rc =>
        if rc =? 0 then
          match run_child (docker_run env api_key) with
          | Completed rc' =>
              (if rc' =? 0 then Returned () else Raised (CalledProcessError rc'),
               World (env_file w) env out1 tr2)
          | Interrupted =>
              (Returned (),
               World (env_file w) env (out1 ++ [nl +:+ nl +:+ "✓ Server stopped"]) tr2)
          | NotFound => (Raised FileNotFoundError, World (env_file w) env out1 tr2)
          end
        else
          (Exited 1,
           World (env_file w) env
             (out0 ++ ["✗ Failed to build Docker image (exit code " +:+ pretty rc +:+ ")"])
             tr1)
    end.
Proof.
  destruct w as [f env out tr]; unfold start_server_docker, docker_build; run.
  destruct (run_child _) as [rc| |]; run; flat; try reflexivity.
  destruct (rc =? 0) eqn:Erc; run; flat; [|reflexivity].
  unfold docker_run, docker_uri.
  destruct (references_loopback _) eqn:El; run; flat;
    (destruct (run_child _) as [rc'| |]; run; flat; [destruct (rc' =? 0)|..]; reflexivity).
Qed.

(** The environment after [load_dotenv]: a variable that was set keeps its
    value, whatever the file says; one that was not set takes the value of
    the file. *)
Lemma load_env_set (t : string) (env : gmap string string) (k v : string) :
  env !! k = Some v → load_env (Some t) env !! k = Some v.
Proof. intros E. unfold load_env. by apply lookup_union_Some_l. Qed.

Lemma load_env_unset (t : string) (env : gmap string string) (k : string) :
  env !! k = None → load_env (Some t) env !! k = file_value env t k.
Proof.
  intros E. unfold load_env, file_value.
  rewrite lookup_union_r by done. rewrite lookup_omap.
  by destruct (dotenv_values env t !! k).
Qed.

Lemma all_truthy (a b c : option string) :
  forallb truthy [a; b; c] = true ↔ truthy a = true ∧ truthy b = true ∧ truthy c = true.
Proof. cbn [forallb]. rewrite !andb_true_iff. tauto. Qed.

(** What the reader of the program finds in a plain file. *)
Lemma reads_plain_value (env : gmap string string) (t k : string) :
  Plain.reads_plain → Plain.plain_text t = true → file_value env t k = Plain.value_of t k.
Proof. intros Hplain Ht. unfold file_value, Plain.value_of. by rewrite Hplain. Qed.

(** The reader of the program finds in the file that the provisioner writes
    the values that were put in it, when they are plain. *)
Lemma written_reads_back (uri user pw db key : string) (env : gmap string string) :
  Plain.reads_plain →
  forallb Plain.plain_value [uri; user; pw; db; key] = true →
  let t := env_content uri user pw db key in
  file_value env t "NEO4J_URI" = Some uri ∧
  file_value env t "NEO4J_USERNAME" = Some user ∧
  file_value env t "NEO4J_PASSWORD" = Some pw ∧
  file_value env t "NEO4J_DATABASE" = Some db ∧
  file_value env t "NEO4J_TRANSPORT" = Some "http" ∧
  file_value env t "NEO4J_MCP_SERVER_HOST" = Some "127.0.0.1" ∧
  file_value env t "NEO4J_MCP_SERVER_PORT" = Some "8001" ∧
  file_value env t "NEO4J_MCP_SERVER_PATH" = Some "/mcp/" ∧
  file_value env t "NEO4J_API_KEY" = Some key.
Proof.
  intros Hplain Hvalues t.
  assert (Hone : forallb one_line [uri; user; pw; db; key] = true).
  { cbn [forallb] in *. rewrite !andb_true_iff in *.
    destruct Hvalues as (? & ? & ? & ? & ? & _).
    split_and!; by try apply plain_value_one_line. }
  pose proof (plain_reads_back uri user pw db key Hone) as R. cbn zeta in R.
  pose proof (env_content_plain uri user pw db key Hvalues) as Ht.
  subst t. rewrite !(reads_plain_value env _ _ Hplain Ht). exact R.
Qed.

(** ** The configuration file *)

(** C10: the required fields are looked up in the process environment after
    the prior file is loaded into it without overriding.  A variable that the
    invoking process has set keeps its value there whatever the file says, a
    variable that it has not set takes the value of the file; the
    provisioner writes the file when NEO4J_URI, NEO4J_USERNAME and
    NEO4J_PASSWORD are all set and not empty there, and the text it writes
    has, line by line, the values found there; it aborts with status 1, the
    file untouched, when one of the three is not. *)
Theorem validation_reads_merged_environment (api_key : string) (w : world) (t : string) :
  env_file w = Some t →
  let env := load_env (Some t) (environ w) in
  (∀ k v, environ w !! k = Some v → env !! k = Some v) ∧
  (∀ k, environ w !! k = None → env !! k = file_value (environ w) t k) ∧
  update_env_with_api_key api_key w =
    if forallb truthy [env !! "NEO4J_URI"; env !! "NEO4J_USERNAME"; env !! "NEO4J_PASSWORD"]
    then
      (Returned (),
       World
         (Some (unlines
                  [ "# Neo4j Connection (from your cloud instance)";
                    "NEO4J_URI=" +:+ fmt (env !! "NEO4J_URI");
                    "NEO4J_USERNAME=" +:+ fmt (env !! "NEO4J_USERNAME");
                    "NEO4J_PASSWORD=" +:+ fmt (env !! "NEO4J_PASSWORD");
                    "NEO4J_DATABASE=" +:+ default "neo4j" (env !! "NEO4J_DATABASE");
                    EmptyString;
                    "# Server Configuration (for testing)";
                    "NEO4J_TRANSPORT=http";
                    "NEO4J_MCP_SERVER_HOST=127.0.0.1";
                    "NEO4J_MCP_SERVER_PORT=8001";
                    "NEO4J_MCP_SERVER_PATH=/mcp/";
                    EmptyString;
                    "# API Key (generated for this server session)";
                    "NEO4J_API_KEY=" +:+ api_key ]))
         env (stdout w ++ ["✓ Updated .env file with API key"]) (trace w))
    else
      (Exited 1,
       World (Some t) env
         (stdout w ++ ["✗ Missing Neo4j connection info in .env file";
                       "Please ensure NEO4J_URI, NEO4J_USERNAME, and NEO4J_PASSWORD are set"])
         (trace w)).
Proof.
  intros Ht env. split; [|split].
  - intros k v. apply load_env_set.
  - intros k. apply load_env_unset.
  - rewrite update_env_run, Ht. reflexivity.
Qed.

(** C2, amended: when the file does not exist, or when one of NEO4J_URI,
    NEO4J_USERNAME, NEO4J_PASSWORD is absent or empty in the process
    environment once the file is loaded into it (without overriding what the
    environment had), the provisioner prints its two lines, exits with
    status 1 and leaves the file as it was; nothing is run. *)
Theorem abort_leaves_file (api_key : string) (w : world) :
  (env_file w = None ∨
   ∃ k, k ∈ ["NEO4J_URI"; "NEO4J_USERNAME"; "NEO4J_PASSWORD"] ∧
        truthy (load_env (env_file w) (environ w) !! k) = false) →
  ∃ w',
    update_env_with_api_key api_key w = (Exited 1, w') ∧
    exit_status (update_env_with_api_key api_key w).1 ≠ 0 ∧
    env_file w' = env_file w ∧
    trace w' = trace w ∧
    stdout w' =
      stdout w ++
        (if bool_decide (is_Some (env_file w))
         then ["✗ Missing Neo4j connection info in .env file";
               "Please ensure NEO4J_URI, NEO4J_USERNAME, and NEO4J_PASSWORD are set"]
         else ["✗ .env file not found at " +:+ env_path;
               "Please copy .env.sample to .env and add your Neo4j credentials"]).
Proof.
  intros Hmiss. rewrite update_env_run.
  destruct (env_file w) as [t|] eqn:Ht.
  - destruct Hmiss as [|(k & Hk & Hfalse)]; [done|].
    cbn zeta.
    assert (forallb truthy
              [load_env (Some t) (environ w) !! "NEO4J_URI";
               load_env (Some t) (environ w) !! "NEO4J_USERNAME";
               load_env (Some t) (environ w) !! "NEO4J_PASSWORD"] = false) as ->.
    { apply not_true_is_false. intros (H1 & H2 & H3)%all_truthy.
      rewrite !elem_of_cons in Hk. rewrite elem_of_nil in Hk.
      destruct Hk as [->|[->|[->|[]]]]; congruence. }
    eexists. split; [reflexivity|]. cbn. done.
  - eexists. split; [reflexivity|]. cbn. done.
Qed.

(** C1, amended: when the prior file gives NEO4J_URI, NEO4J_USERNAME and
    NEO4J_PASSWORD values that are not empty, and the invoking process has
    set none of these three nor NEO4J_DATABASE in its environment, the
    provisioner writes a file whose lines for the datastore fields hold the
    values of the prior file as they are (the database name being neo4j
    when the prior file has none) and whose line for NEO4J_API_KEY holds the
    credential generated in this run.  When these values are plain, the
    reader of the program finds them again in the new file, each field with
    the value it had; and the credential it finds there differs from the
    one of the prior file unless the generator returned that very one,
    which nothing in the code excludes. *)
Theorem datastore_fields_kept (api_key : string) (w : world) (t uri user pw : string) :
  env_file w = Some t →
  file_value (environ w) t "NEO4J_URI" = Some uri → uri ≠ EmptyString →
  file_value (environ w) t "NEO4J_USERNAME" = Some user → user ≠ EmptyString →
  file_value (environ w) t "NEO4J_PASSWORD" = Some pw → pw ≠ EmptyString →
  (∀ k, k ∈ ["NEO4J_URI"; "NEO4J_USERNAME"; "NEO4J_PASSWORD"; "NEO4J_DATABASE"] →
        environ w !! k = None) →
  let db := default "neo4j" (file_value (environ w) t "NEO4J_DATABASE") in
  ∃ w' t',
    update_env_with_api_key api_key w = (Returned (), w') ∧
    env_file w' = Some t' ∧
    t' = unlines
           [ "# Neo4j Connection (from your cloud instance)";
             "NEO4J_URI=" +:+ uri;
             "NEO4J_USERNAME=" +:+ user;
             "NEO4J_PASSWORD=" +:+ pw;
             "NEO4J_DATABASE=" +:+ db;
             EmptyString;
             "# Server Configuration (for testing)";
             "NEO4J_TRANSPORT=http";
             "NEO4J_MCP_SERVER_HOST=127.0.0.1";
             "NEO4J_MCP_SERVER_PORT=8001";
             "NEO4J_MCP_SERVER_PATH=/mcp/";
             EmptyString;
             "# API Key (generated for this server session)";
             "NEO4J_API_KEY=" +:+ api_key ] ∧
    (Plain.reads_plain →
     forallb Plain.plain_value [uri; user; pw; db; api_key] = true →
     ∀ env,
       file_value env t' "NEO4J_URI" = Some uri ∧
       file_value env t' "NEO4J_USERNAME" = Some user ∧
       file_value env t' "NEO4J_PASSWORD" = Some pw ∧
       file_value env t' "NEO4J_DATABASE" = Some db ∧
       file_value env t' "NEO4J_API_KEY" = Some api_key ∧
       (file_value (environ w) t "NEO4J_API_KEY" ≠ Some api_key →
        file_value env t' "NEO4J_API_KEY" ≠ file_value (environ w) t "NEO4J_API_KEY")).
Proof.
  intros Ht Huri Huri' Huser Huser' Hpw Hpw' Hunset db.
  rewrite update_env_run, Ht. cbn zeta.
  rewrite !load_env_unset by (apply Hunset; set_solver).
  rewrite Huri, Huser, Hpw. cbn [forallb].
  rewrite !truthy_true by done. cbn [andb].
  eexists _, _. split_and!; [reflexivity..|].
  intros Hplain Hvalues env.
  change (fmt (Some uri)) with uri. change (fmt (Some user)) with user.
  change (fmt (Some pw)) with pw.
  destruct (written_reads_back uri user pw db api_key env Hplain Hvalues)
    as (Ruri & Ruser & Rpw & Rdb & _ & _ & _ & _ & Rkey).
  split_and!; [exact Ruri|exact Ruser|exact Rpw|exact Rdb|exact Rkey|].
  intros Hold. unfold db in Rkey. rewrite Rkey. congruence.
Qed.

(** C3, amended: the file that a provisioning run writes has NEO4J_URI,
    NEO4J_USERNAME, NEO4J_PASSWORD and NEO4J_DATABASE as the process
    environment has them once the previous copy is loaded into it (so as the
    previous copy has them, for the variables that the invoking process had
    not set), NEO4J_DATABASE being neo4j when it is nowhere; it has
    NEO4J_TRANSPORT=http, NEO4J_MCP_SERVER_HOST=127.0.0.1,
    NEO4J_MCP_SERVER_PORT=8001 and NEO4J_MCP_SERVER_PATH=/mcp/ whatever the
    previous copy held for them; and NEO4J_API_KEY is the new key.  Read as
    plain [NAME=value] lines the file gives these nine values, when none of
    the five that vary has a line feed. *)
Theorem written_file_is_template (api_key : string) (w w' : world) :
  update_env_with_api_key api_key w = (Returned (), w') →
  ∃ t t' uri user pw,
    env_file w = Some t ∧
    let env := load_env (Some t) (environ w) in
    let db := default "neo4j" (env !! "NEO4J_DATABASE") in
    env !! "NEO4J_URI" = Some uri ∧
    env !! "NEO4J_USERNAME" = Some user ∧
    env !! "NEO4J_PASSWORD" = Some pw ∧
    (∀ k, environ w !! k = None → env !! k = file_value (environ w) t k) ∧
    env_file w' = Some t' ∧
    t' = unlines
           [ "# Neo4j Connection (from your cloud instance)";
             "NEO4J_URI=" +:+ uri;
             "NEO4J_USERNAME=" +:+ user;
             "NEO4J_PASSWORD=" +:+ pw;
             "NEO4J_DATABASE=" +:+ db;
             EmptyString;
             "# Server Configuration (for testing)";
             "NEO4J_TRANSPORT=http";
             "NEO4J_MCP_SERVER_HOST=127.0.0.1";
             "NEO4J_MCP_SERVER_PORT=8001";
             "NEO4J_MCP_SERVER_PATH=/mcp/";
             EmptyString;
             "# API Key (generated for this server session)";
             "NEO4J_API_KEY=" +:+ api_key ] ∧
    (forallb one_line [uri; user; pw; db; api_key] = true →
     Plain.value_of t' "NEO4J_URI" = Some uri ∧
     Plain.value_of t' "NEO4J_USERNAME" = Some user ∧
     Plain.value_of t' "NEO4J_PASSWORD" = Some pw ∧
     Plain.value_of t' "NEO4J_DATABASE" = Some db ∧
     Plain.value_of t' "NEO4J_TRANSPORT" = Some "http" ∧
     Plain.value_of t' "NEO4J_MCP_SERVER_HOST" = Some "127.0.0.1" ∧
     Plain.value_of t' "NEO4J_MCP_SERVER_PORT" = Some "8001" ∧
     Plain.value_of t' "NEO4J_MCP_SERVER_PATH" = Some "/mcp/" ∧
     Plain.value_of t' "NEO4J_API_KEY" = Some api_key).
Proof.
  rewrite update_env_run. destruct (env_file w) as [t|] eqn:Ht; [|discriminate].
  cbn zeta. destruct (forallb truthy _) eqn:Hall; [|discriminate].
  intros [= <-]. apply all_truthy in Hall as (H1 & H2 & H3).
  apply truthy_Some in H1 as (uri & Huri & _).
  apply truthy_Some in H2 as (user & Huser & _).
  apply truthy_Some in H3 as (pw & Hpw & _).
  exists t,
    (env_content uri user pw
       (default "neo4j" (load_env (Some t) (environ w) !! "NEO4J_DATABASE")) api_key),
    uri, user, pw.
  cbn zeta. rewrite Huri, Huser, Hpw.
  do 4 (split; [done|]).
  split; [intros k; apply load_env_unset|].
  split; [|split; [reflexivity|]].
  - cbn [env_file].
    change (environ w ∪ omap id (dotenv_values (environ w) t))
      with (load_env (Some t) (environ w)).
    by rewrite Huri, Huser, Hpw.
  - intros Hone. by apply plain_reads_back.
Qed.

(** ** The launchers *)

(** What a run of [main] does: the banner, the configuration file, the
    launcher. *)
Lemma main_run (docker : bool) (w : world) :
  main docker w =
    let w0 :=
      World (env_file w) (environ w)
        (stdout w ++
           [repeat_str "=" 60; "MCP Neo4j Cypher Server - HTTP Mode with Authentication";
            repeat_str "=" 60; EmptyString])
        (trace w) in
    match update_env_with_api_key generate_api_key w0 with
    | (Returned _, w1) =>
        if docker then start_server_docker generate_api_key w1
        else start_server generate_api_key w1
    | (Exited c, w1) => (Exited c, w1)
    | (Raised e, w1) => (Raised e, w1)
    end.
Proof.
  destruct w as [f env out tr]. unfold main. run. flat.
  destruct (update_env_with_api_key _ _) as [[[]| |] w1]; by destruct docker.
Qed.

(** Laying a mapping over an environment, entry by entry. *)
Lemma dict_update_other (kvs : list (string * string)) (env : gmap string string) (k : string) :
  k ∉ kvs.*1 → dict_update env kvs !! k = env !! k.
Proof.
  revert env. induction kvs as [|[k' v'] kvs IH]; intros env Hk; [done|].
  cbn in *. rewrite not_elem_of_cons in Hk. destruct Hk as [Hne Hk].
  rewrite IH by done. by rewrite lookup_insert_ne.
Qed.

Lemma dict_update_here (kvs : list (string * string)) (env : gmap string string)
    (k v : string) :
  NoDup kvs.*1 → (k, v) ∈ kvs → dict_update env kvs !! k = Some v.
Proof.
  revert env. induction kvs as [|[k' v'] kvs IH]; intros env Hnd Hin.
  - by apply elem_of_nil in Hin.
  - cbn in *. apply NoDup_cons in Hnd as [Hk' Hnd].
    apply elem_of_cons in Hin as [[= <- <-]|Hin].
    + rewrite dict_update_other by done. by rewrite lookup_insert_eq.
    + by apply IH.
Qed.

Lemma NoDup_fst_functional {A} (kvs : list (string * A)) (k : string) (a b : A) :
  NoDup kvs.*1 → (k, a) ∈ kvs → (k, b) ∈ kvs → a = b.
Proof.
  induction kvs as [|[k' v'] kvs IH]; cbn; intros Hnd Ha Hb.
  - by apply elem_of_nil in Ha.
  - apply NoDup_cons in Hnd as [Hk' Hnd].
    assert (Hfresh : ∀ c, (k', c) ∈ kvs → False).
    { intros c Hc. apply Hk', list_elem_of_fmap. by exists (k', c). }
    apply elem_of_cons in Ha as [Ha|Ha], Hb as [Hb|Hb]; simplify_eq; eauto; by exfalso; eauto.
Qed.

Lemma drop_none_keys (kvs : list (string * option string)) (k : string) :
  k ∈ (drop_none kvs).*1 → ∃ v, (k, Some v) ∈ kvs.
Proof.
  unfold drop_none. intros ([k' v] & -> & Hin)%list_elem_of_fmap.
  apply list_elem_of_omap in Hin as ([k'' [v'|]] & Hin & Heq); simplify_eq/=.
  eauto.
Qed.

Lemma drop_none_NoDup (kvs : list (string * option string)) :
  NoDup kvs.*1 → NoDup (drop_none kvs).*1.
Proof.
  induction kvs as [|[k [v|]] kvs IH]; cbn; intros Hnd; [done| |].
  - apply NoDup_cons in Hnd as [Hk Hnd]. apply NoDup_cons. split; [|by apply IH].
    intros (v' & Hin)%drop_none_keys. apply Hk.
    apply list_elem_of_fmap. by exists (k, Some v').
  - apply NoDup_cons in Hnd as [_ Hnd]. by apply IH.
Qed.

Lemma env_updates_keys (env : gmap string string) (api_key : string) :
  (env_updates env api_key).*1 =
    ["NEO4J_URI"; "NEO4J_USERNAME"; "NEO4J_PASSWORD"; "NEO4J_DATABASE"; "NEO4J_TRANSPORT";
     "NEO4J_MCP_SERVER_HOST"; "NEO4J_MCP_SERVER_PORT"; "NEO4J_MCP_SERVER_PATH";
     "NEO4J_API_KEY"].
Proof. reflexivity. Qed.

Lemma env_updates_NoDup (env : gmap string string) (api_key : string) :
  NoDup (env_updates env api_key).*1.
Proof. rewrite env_updates_keys. apply (bool_decide_unpack _). by vm_compute. Qed.

(** C7: the child of the local launch is run with the process environment
    (as it is once [load_dotenv] has read the file) overlaid with the
    configuration mapping: a key of the mapping whose value is not absent
    has exactly that value, a key whose value is absent is skipped and has
    what the environment had, every other variable is inherited, and
    NEO4J_API_KEY is the key that the launcher was given: in a run of
    [main], the one generated in this run. *)
Theorem child_environment_is_overlay (api_key : string) (w : world) :
  let env := load_env (env_file w) (environ w) in
  let mapping := env_updates env api_key in
  (∃ child : gmap string string,
     trace (start_server api_key w).2 =
       trace w ++ [Ran (Spawn ["uv"; "run"; "mcp-neo4j-cypher"] (Some project_dir) (Some child))
                     (run_child (uv_run env api_key))] ∧
     child = dict_update env (drop_none mapping) ∧
     (∀ k v, (k, Some v) ∈ mapping → child !! k = Some v) ∧
     (∀ k, (k, None) ∈ mapping → child !! k = env !! k) ∧
     (∀ k, k ∉ mapping.*1 → child !! k = env !! k) ∧
     child !! "NEO4J_API_KEY" = Some api_key) ∧
  (trace (main false w).2 = trace w ∨
   ∃ cwd child r,
     trace (main false w).2 = trace w ++ [Ran (Spawn ["uv"; "run"; "mcp-neo4j-cypher"] cwd (Some child)) r] ∧
     child !! "NEO4J_API_KEY" = Some generate_api_key).
Proof.
  intros env mapping.
  assert (Hhere : ∀ e key k v, (k, Some v) ∈ env_updates e key → overlay e key !! k = Some v).
  { intros e key k v Hin. apply dict_update_here.
    - apply drop_none_NoDup, env_updates_NoDup.
    - unfold drop_none. apply list_elem_of_omap. by exists (k, Some v). }
  assert (Hkey : ∀ e key, overlay e key !! "NEO4J_API_KEY" = Some key).
  { intros e key. apply Hhere. unfold env_updates. set_solver. }
  split.
  - exists (overlay env api_key). split_and!.
    + rewrite start_server_run. cbn zeta. by destruct (run_child _).
    + reflexivity.
    + apply Hhere.
    + intros k Hin. apply dict_update_other.
      intros (v & Hin')%drop_none_keys.
      pose proof (env_updates_NoDup env api_key) as Hnd.
      by pose proof (NoDup_fst_functional _ _ _ _ Hnd Hin Hin').
    + intros k Hk. apply dict_update_other.
      intros (v & Hin)%drop_none_keys. apply Hk.
      apply list_elem_of_fmap. by exists (k, Some v).
    + apply Hkey.
  - rewrite main_run. cbn zeta. rewrite update_env_run. cbn [env_file environ stdout trace].
    destruct (env_file w) as [t|]; [|by left].
    cbn zeta. destruct (forallb truthy _); [|by left].
    right. rewrite start_server_run. cbn [env_file environ stdout trace]. cbn zeta.
    match goal with
    | |- context [uv_run ?e _] =>
        exists (Some project_dir), (overlay e generate_api_key),
          (run_child (uv_run e generate_api_key))
    end.
    split; [|apply Hkey]. by destruct (run_child _).
Qed.

(** C8: the local launcher ends either before it has run anything (the
    configuration was refused, status 1) or once the one child that it runs
    is over: its result comes with the outcome of that child, and nothing
    happens in between.  When the child has exited the launcher returns;
    when the wait was interrupted it prints that the server was stopped and
    returns, so that the process exits with status 0; when the child could
    not be started the exception goes up. *)
Theorem local_launcher_waits (w : world) :
  let r := main false w in
  (r.1 = Exited 1 ∧ trace r.2 = trace w) ∨
  ∃ p,
    argv p = ["uv"; "run"; "mcp-neo4j-cypher"] ∧
    trace r.2 = trace w ++ [Ran p (run_child p)] ∧
    match run_child p with
    | Completed _ => r.1 = Returned ()
    | Interrupted =>
        r.1 = Returned () ∧ exit_status r.1 = 0 ∧
        last (stdout r.2) = Some (nl +:+ nl +:+ "✓ Server stopped")
    | NotFound => r.1 = Raised FileNotFoundError
    end.
Proof.
  intros r. subst r. rewrite main_run. cbn zeta.
  rewrite update_env_run. cbn [env_file environ stdout trace].
  destruct (env_file w) as [t|]; [|by left].
  cbn zeta. destruct (forallb truthy _); [|by left].
  right. rewrite start_server_run. cbn [env_file environ stdout trace]. cbn zeta.
  eexists (uv_run _ _). split; [reflexivity|].
  destruct (run_child _) eqn:E; cbn [fst snd trace stdout]; rewrite ?E; split_and!; try done.
  by rewrite last_snoc.
Qed.

(** C9, amended: in the containerized launch, a build that fails makes the
    launcher print the exit code of the build and exit with status 1,
    whatever that code was; a container runtime that is not installed makes
    it print where to get one and exit with status 1; a container that exits
    with a code other than 0 makes [subprocess.run] raise
    [CalledProcessError], which nothing catches, so that the process ends
    with status 1.  In the two first cases no container is run. *)
Theorem docker_failures_exit_1 (api_key : string) (w : world) :
  let env := load_env (env_file w) (environ w) in
  let r := start_server_docker api_key w in
  match run_child docker_build with
  | Completed rc =>
      if rc =? 0 then
        trace r.2 =
          trace w ++ [Ran docker_build (Completed rc);
                      Ran (docker_run env api_key) (run_child (docker_run env api_key))] ∧
        match run_child (docker_run env api_key) with
        | Completed rc' =>
            if rc' =? 0 then r.1 = Returned ()
            else r.1 = Raised (CalledProcessError rc') ∧ exit_status r.1 = 1
        | Interrupted => r.1 = Returned ()
        | NotFound => r.1 = Raised FileNotFoundError
        end
      else
        r.1 = Exited 1 ∧
        trace r.2 = trace w ++ [Ran docker_build (Completed rc)] ∧
        last (stdout r.2) =
          Some ("✗ Failed to build Docker image (exit code " +:+ pretty rc +:+ ")")
  | NotFound =>
      r.1 = Exited 1 ∧
      trace r.2 = trace w ++ [Ran docker_build NotFound] ∧
      ∃ out, stdout r.2 =
        out ++ ["✗ Docker not found";
                "Please install Docker: https://docs.docker.com/get-docker/"]
  | Interrupted => r.1 = Raised KeyboardInterrupt
  end.
Proof.
  intros env r. subst r env. rewrite start_server_docker_run. cbn zeta.
  destruct (run_child docker_build) as [rc| |].
  - destruct (rc =? 0).
    + destruct (run_child (docker_run _ _)) as [rc'| |]; cbn [fst snd trace]; flat;
        [by destruct (rc' =? 0)|done..].
    + split_and!; try done. cbn [snd stdout]. apply last_snoc.
  - done.
  - split_and!; try done. cbn [snd stdout]. eexists. reflexivity.
Qed.

(** C4, amended: in the containerized launch, once the image is built, the
    container is run with [-e NEO4J_URI=...] holding the address of the
    process environment, rewritten when the text [localhost] or the text
    [127.0.0.1] occurs in it, wherever that is: such an address has the
    occurrences of the first, then those of the second, replaced by
    [host.docker.internal] (a text occurs where [find] finds it; [replace]
    cuts the address at the first occurrence, puts the alias in its place
    and goes on after it); any other address is passed as it is, also when
    it names the loopback interface in another way.
    [bolt://localhost:7687] becomes [bolt://host.docker.internal:7687]. *)
Theorem loopback_rewritten_for_container (api_key : string) (w : world) :
  let env := load_env (env_file w) (environ w) in
  let r := start_server_docker api_key w in
  match run_child docker_build with
  | Completed Z0 =>
      ∃ p, trace r.2 = trace w ++ [Ran docker_build (Completed 0); Ran p (run_child p)] ∧
           take 3 (argv p) = ["docker"; "run"; "--rm"] ∧
           argv p !! 5%nat = Some "-e" ∧
           argv p !! 6%nat = Some ("NEO4J_URI=" +:+ fmt (docker_uri (env !! "NEO4J_URI")))
  | _ => trace r.2 = trace w ++ [Ran docker_build (run_child docker_build)]
  end ∧
  (∀ u, docker_uri (Some u) =
          Some (if contains "localhost" u || contains "127.0.0.1" u
                then replace "127.0.0.1" "host.docker.internal"
                       (replace "localhost" "host.docker.internal" u)
                else u)) ∧
  (∀ sub u, contains sub u = bool_decide (is_Some (find sub u))) ∧
  (∀ u, replace "localhost" "host.docker.internal" u =
          match find "localhost" u with
          | Some n =>
              bytes_take n u +:+ "host.docker.internal"
                +:+ replace "localhost" "host.docker.internal" (bytes_drop (n + 9) u)
          | None => u
          end) ∧
  (∀ u, replace "127.0.0.1" "host.docker.internal" u =
          match find "127.0.0.1" u with
          | Some n =>
              bytes_take n u +:+ "host.docker.internal"
                +:+ replace "127.0.0.1" "host.docker.internal" (bytes_drop (n + 9) u)
          | None => u
          end) ∧
  docker_uri (Some "bolt://localhost:7687") = Some "bolt://host.docker.internal:7687" ∧
  docker_uri (Some "bolt://127.0.0.1:7687") = Some "bolt://host.docker.internal:7687" ∧
  docker_uri (Some "neo4j+s://db.example.com:7687") = Some "neo4j+s://db.example.com:7687".
Proof.
  intros env r. subst r env. split; [|split_and!; try reflexivity].
  2: { intros u. unfold docker_uri, references_loopback.
       destruct u as [|c u]; [reflexivity|].
       cbn [truthy String.eqb negb andb]. by destruct (_ || _). }
  2: apply contains_find.
  2,3: intros u; destruct (find _ u) as [n|] eqn:E;
         [by apply replace_find|by apply replace_absent].
  - rewrite start_server_docker_run. cbn zeta.
    destruct (run_child docker_build) as [[|rc|rc]| |]; try done.
    exists (docker_run (load_env (env_file w) (environ w)) api_key).
    split_and!; try reflexivity.
    by destruct (run_child (docker_run _ _)) as [rc'| |]; cbn [snd trace]; flat.
Qed.

End WithOutside.

(** ** Instances and counterexamples *)

(** The prior file has no NEO4J_URI, the invoking process has one: the
    provisioner goes on and writes the address of the process. *)
Lemma validation_reads_merged_environment_witness :
  let w := Plain.start (Some Plain.env_no_uri)
             ({["NEO4J_URI" := "bolt://from-env:7687"]} : gmap string string) in
  let r := update_env_with_api_key (H := Plain.quiet) "fresh" w in
  Plain.value_of Plain.env_no_uri "NEO4J_URI" = None ∧
  r.1 = Returned () ∧
  ∃ t', env_file r.2 = Some t' ∧
        take 5 (lines t') =
          [ "# Neo4j Connection (from your cloud instance)";
            "NEO4J_URI=bolt://from-env:7687";
            "NEO4J_USERNAME=neo4j";
            "NEO4J_PASSWORD=s3cret";
            "NEO4J_DATABASE=neo4j" ].
Proof.
  intros w r. split; [by vm_compute|]. subst r.
  destruct (validation_reads_merged_environment (H := Plain.quiet) "fresh" w
              Plain.env_no_uri eq_refl) as (_ & _ & E).
  rewrite E. split; [by vm_compute|]. eexists. split; by vm_compute.
Defined.

Lemma abort_leaves_file_witness :
  ∃ w',
    update_env_with_api_key (H := Plain.quiet) "fresh"
      (Plain.start (Some Plain.env_no_uri) ∅) = (Exited 1, w') ∧
    env_file w' = Some Plain.env_no_uri.
Proof.
  destruct (abort_leaves_file (H := Plain.quiet) "fresh"
              (Plain.start (Some Plain.env_no_uri) ∅)) as (w' & E & _ & F & _).
  { right. exists "NEO4J_URI". split; [set_solver|by vm_compute]. }
  exists w'. by split.
Defined.

Lemma datastore_fields_kept_witness :
  ∃ w' t',
    update_env_with_api_key (H := Quoting.outside) "fresh"
      (Plain.start (Some Plain.env_sample) ∅) = (Returned (), w') ∧
    env_file w' = Some t' ∧
    take 5 (lines t') =
      [ "# Neo4j Connection (from your cloud instance)";
        "NEO4J_URI=bolt://db.example.com:7687";
        "NEO4J_USERNAME=neo4j";
        "NEO4J_PASSWORD=s3cret";
        "NEO4J_DATABASE=neo4j" ] ∧
    file_value (H := Quoting.outside) ∅ t' "NEO4J_PASSWORD" = Some "s3cret" ∧
    file_value (H := Quoting.outside) ∅ t' "NEO4J_API_KEY" = Some "fresh" ∧
    file_value (H := Quoting.outside) ∅ t' "NEO4J_API_KEY"
      ≠ file_value (H := Quoting.outside) ∅ Plain.env_sample "NEO4J_API_KEY".
Proof.
  destruct (datastore_fields_kept (H := Quoting.outside) "fresh"
              (Plain.start (Some Plain.env_sample) ∅) Plain.env_sample
              "bolt://db.example.com:7687" "neo4j" "s3cret")
    as (w' & t' & E & F & G & Hread);
    try done; try (by vm_compute).
  destruct (Hread quoting_reads_plain ltac:(by vm_compute) ∅)
    as (_ & _ & Rpw & _ & Rkey & Rnew).
  exists w', t'. split_and!; [exact E|exact F|rewrite G; by vm_compute|exact Rpw|exact Rkey|].
  apply Rnew. by vm_compute.
Defined.

Lemma written_file_is_template_witness :
  let w := Plain.start (Some Plain.env_sample) ∅ in
  ∃ t',
    env_file (update_env_with_api_key (H := Plain.quiet) "fresh" w).2 = Some t' ∧
    Plain.value_of t' "NEO4J_URI" = Some "bolt://db.example.com:7687" ∧
    Plain.value_of t' "NEO4J_MCP_SERVER_PORT" = Some "8001".
Proof.
  intros w.
  destruct (written_file_is_template (H := Plain.quiet) "fresh" w
              (update_env_with_api_key (H := Plain.quiet) "fresh" w).2)
    as (t & t' & uri & user & pw & Ht & Huri & Huser & Hpw & _ & Hfile & Ht' & Hread).
  { by vm_compute. }
  injection Ht as <-.
  vm_compute in Huri, Huser, Hpw. injection Huri as <-. injection Huser as <-.
  injection Hpw as <-.
  exists t'. split; [exact Hfile|].
  destruct Hread as (? & _ & _ & _ & _ & _ & ? & _); [by vm_compute|done].
Defined.

(** What the amended C1 leaves out.  The prior file gives, between quotes, a
    password with a blank and [#] in it; the provisioner writes it without
    quotes, and a reader that knows quotes and comments finds a shorter
    password in the new file: the one that a second run would write. *)
Lemma quoted_password_cut :
  let w := Plain.start (Some Quoting.env_quoted) ∅ in
  let r := update_env_with_api_key (H := Quoting.outside) "fresh" w in
  file_value (H := Quoting.outside) ∅ Quoting.env_quoted "NEO4J_PASSWORD" = Some "p4ss #1" ∧
  Plain.plain_value "p4ss #1" = false ∧
  r.1 = Returned () ∧
  ∃ t', env_file r.2 = Some t' ∧
        lines t' !! 3%nat = Some "NEO4J_PASSWORD=p4ss #1" ∧
        file_value (H := Quoting.outside) ∅ t' "NEO4J_PASSWORD" = Some "p4ss".
Proof.
  intros w r. do 3 (split; [by vm_compute|]).
  eexists. split; [by vm_compute|]. split; by vm_compute.
Qed.

(** C1 as the specification has it fails, in two ways.  The prior file
    has the three fields, the invoking process has exported another
    NEO4J_URI, and the new file has the address of the process, not the one
    of the prior file.  And the credential is not compared with the prior
    one: when the prior file holds the very text that the generator returns
    in this run, the new file holds it again. *)
Lemma prior_uri_shadowed :
  let w := Plain.start (Some Plain.env_sample)
             ({["NEO4J_URI" := "bolt://elsewhere:7687"]} : gmap string string) in
  let r := update_env_with_api_key (H := Plain.quiet) "fresh" w in
  let prior :=
    env_content "bolt://db.example.com:7687" "neo4j" "s3cret" "neo4j"
      (generate_api_key (H := Plain.quiet)) in
  let r' :=
    update_env_with_api_key (H := Plain.quiet) (generate_api_key (H := Plain.quiet))
      (Plain.start (Some prior) ∅) in
  (Plain.value_of Plain.env_sample "NEO4J_URI" = Some "bolt://db.example.com:7687" ∧
   Plain.value_of Plain.env_sample "NEO4J_USERNAME" = Some "neo4j" ∧
   Plain.value_of Plain.env_sample "NEO4J_PASSWORD" = Some "s3cret" ∧
   r.1 = Returned () ∧
   ∃ t', env_file r.2 = Some t' ∧
         Plain.value_of t' "NEO4J_URI" = Some "bolt://elsewhere:7687" ∧
         Plain.value_of t' "NEO4J_URI"
           ≠ Plain.value_of Plain.env_sample "NEO4J_URI") ∧
  (r'.1 = Returned () ∧
   ∃ t', env_file r'.2 = Some t' ∧
         Plain.value_of t' "NEO4J_API_KEY" = Plain.value_of prior "NEO4J_API_KEY" ∧
         Plain.value_of prior "NEO4J_API_KEY" = Some (generate_api_key (H := Plain.quiet))).
Proof.
  intros w r prior r'. split.
  - do 4 (split; [by vm_compute|]).
    eexists. split; [by vm_compute|]. split; by vm_compute.
  - split; [by vm_compute|].
    eexists. split; [by vm_compute|]. split; by vm_compute.
Qed.

(** C2 as the specification has it fails: the prior file has no NEO4J_URI,
    the invoking process has one, and the provisioner does not abort: it
    writes a new file. *)
Lemma missing_field_taken_from_environment :
  let w := Plain.start (Some Plain.env_no_uri)
             ({["NEO4J_URI" := "bolt://from-env:7687"]} : gmap string string) in
  let r := update_env_with_api_key (H := Plain.quiet) "fresh" w in
  Plain.value_of Plain.env_no_uri "NEO4J_URI" = None ∧
  r.1 = Returned () ∧
  exit_status r.1 = 0 ∧
  env_file r.2 ≠ env_file w.
Proof. intros w r. split_and!; by vm_compute. Qed.

(** C3 as the specification has it fails: the previous copy has
    NEO4J_MCP_SERVER_PORT=9000 and the new file has 8001. *)
Lemma prior_port_not_kept :
  let w := Plain.start (Some Plain.env_sample) ∅ in
  let r := update_env_with_api_key (H := Plain.quiet) "fresh" w in
  Plain.value_of Plain.env_sample "NEO4J_MCP_SERVER_PORT" = Some "9000" ∧
  r.1 = Returned () ∧
  ∃ t', env_file r.2 = Some t' ∧
        Plain.value_of t' "NEO4J_MCP_SERVER_PORT" = Some "8001" ∧
        Plain.value_of t' "NEO4J_MCP_SERVER_PORT"
          ≠ Plain.value_of Plain.env_sample "NEO4J_MCP_SERVER_PORT".
Proof.
  intros w r. do 2 (split; [by vm_compute|]).
  eexists. split; [by vm_compute|]. split; by vm_compute.
Qed.

(** C4 as the specification has it fails, both ways.  [127.0.0.2] and
    [[::1]] are addresses of the loopback interface, and [LOCALHOST] is the
    name of it: the container is given them as they are.  The host
    [notlocalhost.example.com] and the address [127.0.0.10] are no
    references to the loopback interface: they are rewritten. *)
Lemma other_loopback_not_rewritten :
  let w := Plain.start None
             ({["NEO4J_URI" := "bolt://127.0.0.2:7687"]} : gmap string string) in
  let r := start_server_docker (H := Plain.quiet) "fresh" w in
  (∃ p res, last (trace r.2) = Some (Ran p res) ∧
            take 2 (argv p) = ["docker"; "run"] ∧
            argv p !! 6%nat = Some "NEO4J_URI=bolt://127.0.0.2:7687") ∧
  docker_uri (Some "bolt://127.0.0.2:7687") = Some "bolt://127.0.0.2:7687" ∧
  docker_uri (Some "bolt://[::1]:7687") = Some "bolt://[::1]:7687" ∧
  docker_uri (Some "bolt://LOCALHOST:7687") = Some "bolt://LOCALHOST:7687" ∧
  docker_uri (Some "bolt://notlocalhost.example.com:7687")
    = Some "bolt://nothost.docker.internal.example.com:7687" ∧
  docker_uri (Some "bolt://127.0.0.10:7687") = Some "bolt://host.docker.internal0:7687".
Proof.
  intros w r. split_and!; try by vm_compute.
  eexists _, _. split_and!; by vm_compute.
Qed.

(** C9 as the specification has it fails: a build that exits with 2 makes
    the process exit with 1, and so does a container that exits with 3. *)
Lemma failed_build_exits_1 :
  let w := Plain.start (Some Plain.env_sample) ∅ in
  let build_fails := Plain.outside (λ _, Completed 2) in
  let run_fails :=
    Plain.outside (λ p, if bool_decide (argv p !! 1%nat = Some "build")
                        then Completed 0 else Completed 3) in
  let r := main (H := build_fails) true w in
  let r' := main (H := run_fails) true w in
  trace r.2 = [Ran (@docker_build build_fails) (Completed 2)] ∧
  r.1 = Exited 1 ∧
  exit_status r.1 ≠ 2 ∧
  last (trace r'.2) = Some (Ran (docker_run (environ r'.2)
                                   (@generate_api_key run_fails)) (Completed 3)) ∧
  r'.1 = Raised (CalledProcessError 3) ∧
  exit_status r'.1 ≠ 3.
Proof. intros w build_fails run_fails r r'. split_and!; by vm_compute. Qed.

End ProvisionerSpec.

Module ProbeSpec.
Import Py Probe Run.

Section WithOutside.
Context `{Outside} `{Server}.

(** What a run of [main] does before the session. *)
Lemma probe_main_run (w : world) :
  main w =
    let out0 :=
      stdout w ++ [repeat_str "=" 60; "MCP Neo4j Cypher Client - Authentication Demo";
                   repeat_str "=" 60; EmptyString] in
    match env_file w with
    | None =>
        (Returned (),
         World None (environ w)
           (out0 ++ ["✗ .env file not found";
                     "Please run start_server.py first to generate API key"])
           (trace w))
    | Some t =>
        let env := load_env (Some t) (environ w) in
        if truthy (env !! "NEO4J_API_KEY") then
          let api_key := fmt (env !! "NEO4J_API_KEY") in
          try_except session
            (λ e, if is_Exception e then
                    Some (print ("✗ Error: " +:+ str_exn e) ;;
                          print EmptyString ;;
                          print "Troubleshooting:" ;;
                          print "1. Ensure start_server.py is running in another terminal" ;;
                          print "2. Check that server is listening on http://127.0.0.1:8001/mcp/" ;;
                          print "3. Verify API key matches between .env and running server" ;;
                          raise e)
                  else None)
            (World (Some t) env
               (out0 ++ ["✓ Loaded API key from .env: " +:+ str_take 16 api_key +:+ "...";
                         EmptyString;
                         "✓ Configured transport: " +:+ server_url; EmptyString])
               (trace w ++ [Transport server_url api_key]))
        else
          (Returned (),
           World (Some t) env
             (out0 ++ ["✗ NEO4J_API_KEY not found in .env";
                       "Please run start_server.py first to generate API key"])
             (trace w))
    end.
Proof.
  destruct w as [[t|] env out tr]; unfold main.
  - unfold path_exists, load_dotenv, os_getenv, print, log, mbind, M_bind, mret, M_ret.
    cbn -[lookup union app load_env String.append repeat_str truthy session try_except str_take].
    destruct (truthy _); cbn -[lookup union app load_env String.append repeat_str truthy session try_except str_take]; flat; reflexivity.
  - run. flat. reflexivity.
Qed.

(** C6, amended: when the configuration file does not exist, or when
    NEO4J_API_KEY is absent or empty in the process environment once the file
    is loaded into it (without overriding what the environment had), the
    probe prints two lines and returns: no exception, no transport, no
    session, no call. *)
Theorem no_credential_no_session (w : world) :
  (env_file w = None ∨
   truthy (load_env (env_file w) (environ w) !! "NEO4J_API_KEY") = false) →
  ∃ w' line,
    main w = (Returned (), w') ∧
    trace w' = trace w ∧
    env_file w' = env_file w ∧
    stdout w' =
      stdout w ++ [repeat_str "=" 60; "MCP Neo4j Cypher Client - Authentication Demo";
                   repeat_str "=" 60; EmptyString;
                   line; "Please run start_server.py first to generate API key"].
Proof.
  intros Hno. rewrite probe_main_run. cbn zeta.
  destruct (env_file w) as [t|] eqn:Ht.
  - destruct Hno as [Hno|Hno]; [done|]. rewrite Hno.
    eexists _, _. split; [reflexivity|]. cbn. flat. done.
  - eexists _, _. split; [reflexivity|]. cbn. flat. done.
Qed.

(** ** The summary of the schema *)

Lemma keys_of_type_group (tag : string) (items : list (string * json)) :
  forallb summarizable items = true →
  keys_of_type tag items = inr (group tag items).*1.
Proof.
  induction items as [|[k v] items IH]; [done|].
  cbn [forallb]. intros [Hv Hrest]%andb_true_iff.
  unfold summarizable in Hv. cbn [snd] in Hv.
  destruct v as [| | | | | |d]; try done.
  cbn [keys_of_type]. rewrite (IH Hrest).
  unfold group. cbn [List.filter].
  change (has_type tag (k, JObj d)) with (eq_str (dict_get d "type") tag).
  by destruct (eq_str _ tag).
Qed.

Lemma dict_get_elem (items : list (string * json)) (k : string) (v : json) :
  NoDup items.*1 → (k, v) ∈ items → dict_get items k = Some v.
Proof.
  induction items as [|[k' v'] items IH]; cbn; intros Hnd Hin.
  - by apply elem_of_nil in Hin.
  - apply NoDup_cons in Hnd as [Hk' Hnd].
    apply elem_of_cons in Hin as [[= <- <-]|Hin].
    + by rewrite String.eqb_refl.
    + destruct (String.eqb k' k) eqn:E; [|by apply IH].
      apply String.eqb_eq in E as ->. exfalso. apply Hk'.
      apply list_elem_of_fmap. by exists (k, v).
Qed.

Lemma eq_str_spec (v : option json) (s : string) :
  eq_str v s = true ↔ v = Some (JStr s).
Proof.
  destruct v as [[| | | |s'| |]|]; cbn; try (split; [discriminate|by intros [=]]).
  rewrite String.eqb_eq. split; [by intros ->|by intros [= ->]].
Qed.

(** A group has the entries that are objects whose [type] is the tag. *)
Lemma group_spec (tag : string) (items : list (string * json)) (kv : string * json) :
  kv ∈ group tag items ↔
  kv ∈ items ∧ ∃ d, kv.2 = JObj d ∧ dict_get d "type" = Some (JStr tag).
Proof.
  unfold group. rewrite list_elem_of_In, filter_In, <- list_elem_of_In.
  unfold has_type. destruct kv as [k v]; cbn [snd].
  destruct v as [| | | | | |d];
    try (split; [by intros [_ [=]]|by intros [_ (d' & [=] & _)]]).
  rewrite eq_str_spec. split.
  - intros [Hin Ht]. eauto.
  - intros [Hin (d' & [= <-] & Ht)]. eauto.
Qed.

Lemma group_subset (tag : string) (items : list (string * json)) (kv : string * json) :
  kv ∈ group tag items → kv ∈ items ∧ has_type tag kv = true.
Proof. unfold group. rewrite list_elem_of_In, filter_In, <- list_elem_of_In. done. Qed.

(** The loop over a group prints the line of each of its entries. *)
Lemma print_types_run (what : string) (items entries : list (string * json)) (w : world) :
  (∀ kv, kv ∈ entries →
         dict_get items kv.1 = Some kv.2 ∧
         ∃ d n, kv.2 = JObj d ∧
                py_len (default (JObj []) (dict_get d "properties")) = inr n) →
  print_types what items entries.*1 w =
    (Returned (),
     World (env_file w) (environ w) (stdout w ++ (entry_line what <$> entries)) (trace w)).
Proof.
  revert w. induction entries as [|[k v] entries IH]; intros w Hok.
  - cbn. rewrite app_nil_r. by destruct w.
  - destruct (Hok (k, v)) as (Hget & d & n & Hv & Hlen); [by left|].
    cbn [fst snd] in Hget, Hv. subst v.
    cbn [fmap list_fmap fst print_types].
    unfold mbind, M_bind. rewrite Hget. unfold mret, M_ret at 1.
    rewrite Hlen. unfold lift, mret, M_ret. unfold print at 1.
    rewrite IH by (intros kv Hkv; apply Hok; by right).
    cbn [env_file environ stdout trace]. rewrite <- app_assoc.
    unfold entry_line at 2. cbn [fst snd]. rewrite Hlen. reflexivity.
Qed.

Lemma group_printable (tag : string) (items : list (string * json)) :
  tag = "node" ∨ tag = "relationship" →
  NoDup items.*1 → forallb summarizable items = true →
  ∀ kv, kv ∈ group tag items →
        dict_get items kv.1 = Some kv.2 ∧
        ∃ d n, kv.2 = JObj d ∧
               py_len (default (JObj []) (dict_get d "properties")) = inr n.
Proof.
  intros Htag Hnd Hall [k v] [Hin Htype]%group_subset. cbn [fst snd]. split.
  - by apply dict_get_elem.
  - rewrite forallb_forall in Hall. apply list_elem_of_In, Hall in Hin.
    unfold summarizable in Hin. unfold has_type in Htype. cbn [snd] in *.
    destruct v as [| | | | | |d]; try done. exists d.
    assert (eq_str (dict_get d "type") "node" || eq_str (dict_get d "type") "relationship"
            = true) as Hrep.
    { destruct Htag as [-> | ->]; rewrite Htype; [done|apply orb_true_r]. }
    rewrite Hrep in Hin. destruct (py_len _) as [|n]; [done|]. by exists n.
Qed.

(** The loop over a group, with its title and the empty line after it. *)
Lemma print_group_run (title what tag : string) (items : list (string * json)) (w : world) :
  tag = "node" ∨ tag = "relationship" →
  NoDup items.*1 → forallb summarizable items = true →
  (if bool_decide ((group tag items).*1 ≠ []) then
     print title ;; print_types what items (group tag items).*1 ;; print EmptyString
   else mret ()) w =
    (Returned (),
     World (env_file w) (environ w)
       (stdout w ++ group_lines title what (group tag items)) (trace w)).
Proof.
  intros Htag Hnd Hall.
  pose proof (group_printable tag items Htag Hnd Hall) as Hok.
  destruct (group tag items) as [|kv entries] eqn:E.
  - cbn. rewrite app_nil_r. by destruct w.
  - rewrite bool_decide_eq_true_2 by done.
    unfold mbind, M_bind, print at 1.
    rewrite print_types_run by done.
    unfold print. cbn [env_file environ stdout trace]. unfold group_lines.
    rewrite <- !app_assoc. reflexivity.
Qed.

(** What [print_summary] prints for a schema that it can take. *)
Lemma summary_run (items : list (string * json)) (w : world) :
  NoDup items.*1 → forallb summarizable items = true →
  print_summary (JObj items) w =
    (Returned (),
     World (env_file w) (environ w)
       (stdout w ++
          ["Neo4j Schema Summary:"; repeat_str "-" 60;
           "Node types: " +:+ pretty (length (group "node" items));
           "Relationship types: " +:+ pretty (length (group "relationship" items));
           EmptyString] ++
          group_lines "Node Types:" "nodes" (group "node" items) ++
          group_lines "Relationship Types:" "relationships" (group "relationship" items))
       (trace w)).
Proof.
  intros Hnd Hall. unfold print_summary.
  unfold mbind at 1 2 3 4 5 6 7 8, M_bind. unfold print at 1 2. cbn [lift dict_items].
  unfold mret at 1, M_ret.
  rewrite !keys_of_type_group by done. cbn [lift]. unfold mret at 1 2, M_ret.
  unfold print at 1 2 3. cbn [env_file environ stdout trace].
  rewrite bind_run, print_group_run by auto. cbn [env_file environ stdout trace].
  rewrite print_group_run by auto. cbn [env_file environ stdout trace].
  rewrite !length_fmap. rewrite <- !app_assoc. reflexivity.
Qed.

(** C5, amended: for a JSON object whose entries are all objects and, for
    those whose [type] is [node] or [relationship], have [properties] with a
    length (an object, a list, a text) or none, the probe reports the number
    of entries whose [type] is [node] and of those whose [type] is
    [relationship], then for each group that is not empty one line per entry
    with its name, the number of its properties and its [count] ([?] when it
    has none); an entry with another [type], or with none, is in neither
    group.  For the schema of the specification's example it reports 1 node
    type and 1 relationship type, with 5 nodes and 2 relationships. *)
Theorem summary_reports_groups (items : list (string * json)) (w : world) :
  NoDup items.*1 →
  forallb summarizable items = true →
  let nodes := group "node" items in
  let rels := group "relationship" items in
  print_summary (JObj items) w =
    (Returned (),
     World (env_file w) (environ w)
       (stdout w ++
          ["Neo4j Schema Summary:"; repeat_str "-" 60;
           "Node types: " +:+ pretty (length nodes);
           "Relationship types: " +:+ pretty (length rels);
           EmptyString] ++
          group_lines "Node Types:" "nodes" nodes ++
          group_lines "Relationship Types:" "relationships" rels)
       (trace w)) ∧
  (∀ kv, kv ∈ nodes ↔ kv ∈ items ∧ ∃ d, kv.2 = JObj d ∧ dict_get d "type" = Some (JStr "node")) ∧
  (∀ kv, kv ∈ rels ↔
         kv ∈ items ∧ ∃ d, kv.2 = JObj d ∧ dict_get d "type" = Some (JStr "relationship")) ∧
  print_summary example_schema w =
    (Returned (),
     World (env_file w) (environ w)
       (stdout w ++
          ["Neo4j Schema Summary:"; repeat_str "-" 60;
           "Node types: 1";
           "Relationship types: 1";
           EmptyString;
           "Node Types:";
           "  - Person: 1 properties, 5 nodes";
           EmptyString;
           "Relationship Types:";
           "  - KNOWS: 0 properties, 2 relationships";
           EmptyString])
       (trace w)).
Proof.
  intros Hnd Hall nodes rels. split_and!.
  - by apply summary_run.
  - intros kv. apply group_spec.
  - intros kv. apply group_spec.
  - unfold example_schema. rewrite summary_run.
    + reflexivity.
    + apply (bool_decide_unpack _). by vm_compute.
    + reflexivity.
Qed.

(** ** A whole run *)

Lemma print_tools_run (i : nat) (tools : list tool) (w : world) :
  print_tools i tools w =
    (Returned (),
     World (env_file w) (environ w) (stdout w ++ tool_lines i tools) (trace w)).
Proof.
  revert i w. induction tools as [|t tools IH]; intros i w.
  - cbn. rewrite app_nil_r. by destruct w.
  - cbn [print_tools tool_lines]. unfold mbind, M_bind. unfold print at 1.
    destruct (truthy (tool_description t)).
    + unfold print at 1. rewrite IH. cbn [env_file environ stdout trace].
      by rewrite <- !app_assoc.
    + unfold mret, M_ret. rewrite IH. cbn [env_file environ stdout trace].
      by rewrite <- !app_assoc.
Qed.

(** X1: with a credential in the environment and a server that answers with
    tools and with a schema that the summary can take, the probe makes its
    four calls in order, prints the tools and the summary, and returns. *)
Lemma probe_run_reports (w : world) (t key text : string) (tools : list tool)
    (c : content) (rest : list content) (items : list (string * json)) :
  env_file w = Some t →
  load_env (Some t) (environ w) !! "NEO4J_API_KEY" = Some key → key ≠ EmptyString →
  connect = inr () → ping = inr () → list_tools = inr tools →
  call_tool "get_neo4j_schema" = inr (c :: rest) →
  content_text c = Some text →
  json_loads text = inr (JObj items) →
  NoDup items.*1 → forallb summarizable items = true →
  main w =
    (Returned (),
     World (Some t) (load_env (Some t) (environ w))
       (stdout w ++
          [repeat_str "=" 60; "MCP Neo4j Cypher Client - Authentication Demo";
           repeat_str "=" 60; EmptyString;
           "✓ Loaded API key from .env: " +:+ str_take 16 key +:+ "..."; EmptyString;
           "✓ Configured transport: " +:+ server_url; EmptyString;
           "Testing connection..."; "✓ Connection successful"; EmptyString;
           "Available Tools:"; repeat_str "-" 60] ++
          tool_lines 1 tools ++
          [EmptyString; "Calling get_neo4j_schema tool..."; repeat_str "-" 60;
           "✓ Tool call successful"; "  Result type: " +:+ content_type c; EmptyString;
           "Neo4j Schema Summary:"; repeat_str "-" 60;
           "Node types: " +:+ pretty (length (group "node" items));
           "Relationship types: " +:+ pretty (length (group "relationship" items));
           EmptyString] ++
          group_lines "Node Types:" "nodes" (group "node" items) ++
          group_lines "Relationship Types:" "relationships" (group "relationship" items) ++
          [repeat_str "=" 60; "✓ Client demo completed successfully"; repeat_str "=" 60])
       (trace w ++ [Transport server_url key; Opened; Ping; ListTools;
                    CallTool "get_neo4j_schema"])).
Proof.
  intros Ht Hkey Hkey' Hconnect Hping Htools Hcall Htext Hjson Hnd Hall.
  rewrite probe_main_run, Ht. cbn zeta. rewrite Hkey, truthy_true by done.
  cbn [fmt default]. unfold try_except, session.
  rewrite Hconnect, Hping, Htools, Hcall.
  do 11 step. rewrite bind_run, print_tools_run. cbn [env_file environ stdout trace].
  do 9 step.
  rewrite bool_decide_eq_true_2 by done. rewrite bool_decide_eq_true_2 by (cbn; lia).
  cbn [andb]. rewrite Htext. rewrite !bind_run, ret_run. unfold print_schema.
  rewrite bind_run, Hjson, lift_run, summary_run by done.
  cbn [env_file environ stdout trace].
  do 2 step. rewrite print_run. cbn [env_file environ stdout trace].
  do 2 f_equal; rewrite <- ?app_assoc; reflexivity.

Qed.

End WithOutside.

(** ** Instances and counterexamples *)

Lemma no_credential_no_session_witness :
  ∃ w', main (H := Plain.quiet) (H0 := Plain.refusing) (Plain.start None ∅) = (Returned (), w') ∧
        trace w' = [].
Proof.
  destruct (no_credential_no_session (H := Plain.quiet) (H0 := Plain.refusing)
              (Plain.start None ∅)) as (w' & line & E & Ht & _).
  { by left. }
  exists w'. by split.
Defined.

(** C6 as the specification has it fails: the file is there without
    NEO4J_API_KEY, the invoking process has exported one, and the probe
    builds the transport and opens the session; the exception of the server
    that refuses it reaches the caller. *)
Lemma key_from_environment_opens_session :
  let w := Plain.start (Some Plain.env_no_key)
             ({["NEO4J_API_KEY" := "from-the-shell"]} : gmap string string) in
  let r := main (H := Plain.quiet) (H0 := Plain.refusing) w in
  Plain.value_of Plain.env_no_key "NEO4J_API_KEY" = None ∧
  trace r.2 = [Transport server_url "from-the-shell"; Opened] ∧
  r.1 = Raised (SessionError "401 Unauthorized").
Proof. intros w r. split_and!; by vm_compute. Qed.

Lemma summary_reports_groups_witness :
  let w := Plain.start None ∅ in
  ∃ out,
    stdout (print_summary (H := Plain.quiet) example_schema w).2 =
      out ++ ["Node types: 1"; "Relationship types: 1"; EmptyString;
              "Node Types:"; "  - Person: 1 properties, 5 nodes"; EmptyString;
              "Relationship Types:"; "  - KNOWS: 0 properties, 2 relationships"; EmptyString].
Proof.
  intros w.
  destruct (summary_reports_groups (H := Plain.quiet)
              [ ("Person", JObj [ ("type", JStr "node");
                                  ("properties", JObj [ ("name", JObj []) ]);
                                  ("count", JInt 5) ]);
                ("KNOWS", JObj [ ("type", JStr "relationship");
                                 ("properties", JObj []);
                                 ("count", JInt 2) ]) ] w) as [E _].
  { apply (bool_decide_unpack _). by vm_compute. }
  { reflexivity. }
  unfold example_schema. rewrite E.
  exists ["Neo4j Schema Summary:"; repeat_str "-" 60]. by vm_compute.
Defined.

(** C5 as the specification has it fails: an entry of type [node] whose
    [properties] are [null], or an entry that is a number, makes the summary
    raise; no group is reported. *)
Lemma summary_raises_on_unsized :
  let w := Plain.start None ∅ in
  let null_properties :=
    JObj [ ("Person", JObj [ ("type", JStr "node"); ("properties", JNull); ("count", JInt 5) ]) ] in
  let number := JObj [ ("Person", JInt 5) ] in
  (print_summary (H := Plain.quiet) null_properties w).1 = Raised TypeError ∧
  (print_summary (H := Plain.quiet) number w).1 = Raised AttributeError ∧
  stdout (print_summary (H := Plain.quiet) number w).2 =
    ["Neo4j Schema Summary:"; repeat_str "-" 60].
Proof. intros w null_properties number. split_and!; by vm_compute. Qed.

End ProbeSpec.

(** * Further properties *)

(** ** What the steps keep *)

Module FrameFacts.
Import Py Run Frame.

#[export] Instance same_file_preorder : PreOrder same_file.
Proof. split; [done|]. intros w1 w2 w3. unfold same_file. congruence. Qed.

#[export] Instance same_trace_preorder : PreOrder same_trace.
Proof. split; [done|]. intros w1 w2 w3. unfold same_trace. congruence. Qed.

#[export] Instance env_grows_preorder : PreOrder env_grows.
Proof. split; [by intros w k v|]. intros w1 w2 w3 H12 H23 k v Hk. eauto. Qed.

#[export] Instance out_grows_preorder : PreOrder out_grows.
Proof.
  split; [by intros w; unfold out_grows|]. intros w1 w2 w3. unfold out_grows. by etrans.
Qed.

#[export] Instance read_only_preorder : PreOrder read_only.
Proof.
  split; [by intros w; split|].
  intros w1 w2 w3 [F12 E12] [F23 E23]. split; by etrans.
Qed.

Section Keeps.
Context {R : world → world → Prop} `{!PreOrder R}.

Lemma keeps_ret {A} (a : A) : keeps R (mret a).
Proof. by intros w. Qed.

Lemma keeps_raise {A} (e : exn) : keeps R (raise (A := A) e).
Proof. by intros w. Qed.

Lemma keeps_exit {A} (c : Z) : keeps R (sys_exit (A := A) c).
Proof. by intros w. Qed.

Lemma keeps_lift {A} (r : result A) : keeps R (lift r).
Proof. destruct r; [apply keeps_raise|apply keeps_ret]. Qed.

(** A sequence keeps what its steps keep. *)
Lemma keeps_bind {A B} (m : M A) (f : A → M B) :
  keeps R m → (∀ a, keeps R (f a)) → keeps R (m ≫= f).
Proof.
  intros Hm Hf w. rewrite bind_run. specialize (Hm w).
  destruct (m w) as [[a|c|e] w1]; cbn in *; [|done..].
  etrans; [exact Hm|]. apply Hf.
Qed.

Lemma keeps_try {A} (body : M A) (handler : exn → option (M A)) :
  keeps R body → (∀ e h, handler e = Some h → keeps R h) → keeps R (try_except body handler).
Proof.
  intros Hb Hh w. unfold try_except. specialize (Hb w).
  destruct (body w) as [[a|c|e] w1]; cbn in *; [done..|].
  destruct (handler e) as [h|] eqn:E; [|done].
  etrans; [exact Hb|]. by eapply Hh.
Qed.

End Keeps.

(** A sequence exits only if one of its steps does. *)
Lemma never_exits_bind {A B} (m : M A) (f : A → M B) :
  never_exits m → (∀ a, never_exits (f a)) → never_exits (m ≫= f).
Proof.
  intros Hm Hf w c. rewrite bind_run. specialize (Hm w).
  destruct (m w) as [[a|c'|e] w1]; cbn in *; [apply Hf|by destruct (Hm c')|done].
Qed.

Lemma never_exits_try {A} (body : M A) (handler : exn → option (M A)) :
  never_exits body → (∀ e h, handler e = Some h → never_exits h) →
  never_exits (try_except body handler).
Proof.
  intros Hb Hh w c. unfold try_except. specialize (Hb w).
  destruct (body w) as [[a|c'|e] w1]; cbn in *; [done|by destruct (Hb c')|].
  destruct (handler e) as [h|] eqn:E; [|done]. by eapply Hh.
Qed.

Lemma never_exits_lift {A} (r : result A) : never_exits (lift r).
Proof. by destruct r. Qed.

Section WithOutside.
Context `{Outside}.

Lemma load_env_mono (f : option string) (env : gmap string string) (k v : string) :
  env !! k = Some v → load_env f env !! k = Some v.
Proof. destruct f as [t|]; [apply ProvisionerSpec.load_env_set|done]. Qed.

End WithOutside.

(** A step that is one action: the worlds before and after are compared
    field by field. *)
Ltac leaf :=
  let w := fresh "w" in
  intros w; destruct w;
  unfold read_only, same_file, same_trace, env_grows, out_grows;
  cbn -[load_env];
  first [ done
        | by apply prefix_app_r
        | by eauto using load_env_mono
        | by split; eauto using load_env_mono ].

(** A step that is a sequence, a choice or a handler: its parts in turn. *)
Ltac frame :=
  repeat match goal with
         | |- keeps _ (_ ≫= _) => apply keeps_bind; [|intros ?]
         | |- keeps _ (try_except _ _) => apply keeps_try; [|intros ? ? ?]
         | |- keeps _ (lift _) => apply keeps_lift
         | |- keeps _ (mret _) => apply keeps_ret
         | |- keeps _ (raise _) => apply keeps_raise
         | |- keeps _ (sys_exit _) => apply keeps_exit
         | |- keeps _ (if ?b then _ else _) => destruct b
         | |- keeps _ (match ?x with _ => _ end) => destruct x
         | H : (if ?b then _ else _) = Some _ |- _ => destruct b; simplify_eq
         | H : match ?e with _ => _ end = Some _ |- _ => destruct e; simplify_eq
         | H : _ = Some _ |- _ => progress simplify_eq
         | |- keeps _ _ => solve [leaf]
         end.

Ltac quiet :=
  repeat match goal with
         | |- never_exits (_ ≫= _) => apply never_exits_bind; [|intros ?]
         | |- never_exits (try_except _ _) => apply never_exits_try; [|intros ? ? ?]
         | |- never_exits (lift _) => apply never_exits_lift
         | |- never_exits (if ?b then _ else _) => destruct b
         | |- never_exits (match ?x with _ => _ end) => destruct x
         | H : (if ?b then _ else _) = Some _ |- _ => destruct b; simplify_eq
         | H : match ?e with _ => _ end = Some _ |- _ => destruct e; simplify_eq
         | H : _ = Some _ |- _ => progress simplify_eq
         | |- never_exits _ => solve [by intros ? ?]
         end.

End FrameFacts.


(** ** Texts, further *)

Module TextMore.
Import Py Run Frame.

Lemma prefix_cons_inv (a : ascii) (p : string) (c : ascii) (s : string) :
  String.prefix (String a p) (String c s) = true → a = c ∧ String.prefix p s = true.
Proof. cbn. by destruct (Ascii.ascii_dec a c). Qed.

Lemma prefix_app_head (old new rest : string) (a : ascii) (o : string) :
  old = String a o → a ∉ chars new → new ≠ EmptyString →
  String.prefix old (new +:+ rest) = false.
Proof.
  intros -> Ha Hnew. destruct new as [|c new]; [done|].
  change (String c new +:+ rest) with (String c (new +:+ rest)).
  cbn. destruct (Ascii.ascii_dec a c) as [->|]; [|done].
  exfalso. apply Ha. cbn. by left.
Qed.

(** A text that does not begin with the first character of [new] begins the
    rewritten text only if it begins the text itself. *)
Lemma prefix_replace (old new p s : string) :
  new ≠ EmptyString →
  (∀ c n, new = String c n → c ∉ chars p) →
  String.prefix p (replace_go old new O s) = true → String.prefix p s = true.
Proof.
  intros Hnew Hp. revert p Hp. induction s as [|c s IH]; intros p Hp; [done|].
  destruct p as [|a p]; [done|].
  cbn [replace_go]. destruct (String.prefix old (String c s)).
  - destruct new as [|n new]; [done|].
    change (String n new +:+ ?r) with (String n (new +:+ r)).
    intros [-> _]%prefix_cons_inv. exfalso. apply (Hp n new eq_refl). cbn. by left.
  - intros [-> Hrest]%prefix_cons_inv. cbn.
    destruct (Ascii.ascii_dec c c); [|done]. apply IH; [|done].
    intros c' n' Heq Hin. apply (Hp c' n' Heq). cbn. by right.
Qed.

Lemma find_app_head (old new rest : string) (a : ascii) (o : string) :
  old = String a o → a ∉ chars new →
  find old rest = None → find old (new +:+ rest) = None.
Proof.
  intros -> Ha Hrest. induction new as [|c new IH]; [done|].
  change (String c new +:+ rest) with (String c (new +:+ rest)).
  cbn [find]. cbn [chars] in Ha. rewrite not_elem_of_cons in Ha. destruct Ha as [Hac Ha].
  replace (String.prefix (String a o) (String c (new +:+ rest))) with false.
  - by rewrite IH.
  - cbn. by destruct (Ascii.ascii_dec a c).
Qed.

(** After the replacement [old] occurs nowhere, when the first character of
    each of [old] and [new] is not in the other. *)
Lemma find_replace (old new s : string) (a n : ascii) (o m : string) :
  old = String a o → new = String n m →
  a ∉ chars new → n ∉ chars old →
  ∀ k, find old (replace_go old new k s) = None.
Proof.
  intros Hold Hnew Ha Hn. induction s as [|c s IH]; intros k.
  - cbn. by rewrite Hold.
  - destruct k as [|k]; [|apply IH]. cbn [replace_go].
    destruct (String.prefix old (String c s)) eqn:E.
    + by eapply find_app_head.
    + cbn [find].
      destruct (String.prefix old (String c (replace_go old new 0 s))) eqn:E';
        [|by rewrite IH].
      exfalso.
      assert (String.prefix old (replace_go old new 0 (String c s)) = true) as Hp.
      { cbn [replace_go]. by rewrite E. }
      apply prefix_replace in Hp; [congruence|by rewrite Hnew|].
      intros c' n' Heq. rewrite Hnew in Heq. by injection Heq as <- <-.
Qed.

End TextMore.


(** ** The probe, further *)

Module ProbeMore.
Import Py Probe Run Frame FrameFacts.

Section WithOutside.
Context `{Outside} `{Server}.

Section Keeps.
Context {R : world → world → Prop} `{!PreOrder R}.
Hypothesis R_print : ∀ s, keeps R (print s).

Lemma keeps_print_tools (i : nat) (tools : list tool) : keeps R (print_tools i tools).
Proof.
  revert i. induction tools as [|t tools IH]; intros i; cbn [print_tools].
  - apply keeps_ret.
  - apply keeps_bind; [apply R_print|intros _].
    apply keeps_bind; [|intros _; apply IH].
    destruct (truthy _); [apply R_print|apply keeps_ret].
Qed.

Lemma keeps_print_types (what : string) (items : list (string * json)) (types : list string) :
  keeps R (print_types what items types).
Proof.
  induction types as [|type types IH]; cbn [print_types].
  - apply keeps_ret.
  - apply keeps_bind; [|intros info].
    { destruct (dict_get items type) as [[]|]; first [apply keeps_ret|apply keeps_raise]. }
    apply keeps_bind; [apply keeps_lift|intros n].
    apply keeps_bind; [apply R_print|intros _; apply IH].
Qed.

Lemma keeps_print_schema (text : string) : keeps R (print_schema text).
Proof.
  unfold print_schema, print_summary.
  repeat first
    [ apply keeps_bind; [|intros ?]
    | apply keeps_lift | apply keeps_ret | apply R_print | apply keeps_print_types
    | match goal with |- keeps _ (if ?b then _ else _) => destruct b end ].
Qed.

End Keeps.

Lemma keeps_session {R : world → world → Prop} `{!PreOrder R} :
  (∀ s, keeps R (print s)) → (∀ ev, keeps R (log ev)) → keeps R session.
Proof.
  intros R_print R_log. unfold session.
  repeat first
    [ by apply keeps_print_tools | by apply keeps_print_schema
    | apply keeps_bind; [|intros ?]
    | apply keeps_lift | apply keeps_ret | apply keeps_raise | apply R_print | apply R_log
    | match goal with
      | |- keeps _ (if ?b then _ else _) => destruct b
      | |- keeps _ (match ?x with _ => _ end) => destruct x
      end ].
Qed.

Lemma never_exits_print_tools (i : nat) (tools : list tool) : never_exits (print_tools i tools).
Proof.
  revert i. induction tools as [|t tools IH]; intros i; cbn [print_tools]; [done|].
  apply never_exits_bind; [done|intros _].
  apply never_exits_bind; [by destruct (truthy _)|intros _; apply IH].
Qed.

Lemma never_exits_print_types (what : string) (items : list (string * json))
    (types : list string) :
  never_exits (print_types what items types).
Proof.
  induction types as [|type types IH]; cbn [print_types]; [done|].
  apply never_exits_bind; [by destruct (dict_get items type) as [[]|]|intros info].
  apply never_exits_bind; [apply never_exits_lift|intros n].
  apply never_exits_bind; [done|intros _; apply IH].
Qed.

(** A session ends by returning or by raising: nothing in it calls
    [sys.exit]. *)
Lemma never_exits_session : never_exits session.
Proof.
  unfold session, print_schema, print_summary.
  repeat first
    [ apply never_exits_bind; [|intros ?]
    | apply never_exits_lift | apply never_exits_print_tools | apply never_exits_print_types
    | match goal with
      | |- never_exits (if ?b then _ else _) => destruct b
      | |- never_exits (match ?x with _ => _ end) => destruct x
      end
    | solve [by intros ? ?] ].
Qed.

(** The calls of a session: [calls_made], whatever is printed in between. *)
Lemma session_trace (w : world) : trace (session w).2 = trace w ++ calls_made.
Proof.
  assert (Hrest : ∀ (m : M ()) w0, keeps same_trace m → trace (m w0).2 = trace w0).
  { intros m w0 Hm. apply Hm. }
  unfold session, calls_made, session_calls.
  step. destruct connect as [e|[]]; [by rewrite bind_run|].
  do 3 step. destruct ping as [e|[]]; [by rewrite bind_run; cbn; rewrite <- app_assoc|].
  do 6 step. destruct list_tools as [e|tools];
    [by rewrite bind_run; cbn; rewrite <- !app_assoc|].
  step. rewrite bind_run, ProbeSpec.print_tools_run. cbn [env_file environ stdout trace].
  do 4 step. rewrite Hrest.
  - cbn. by rewrite <- !app_assoc.
  - repeat first
      [ by apply keeps_print_schema; intros; leaf
      | apply keeps_bind; [|intros ?]
      | apply keeps_lift | apply keeps_ret | apply keeps_raise
      | solve [leaf]
      | match goal with
        | |- keeps _ (if ?b then _ else _) => destruct b
        | |- keeps _ (match ?x with _ => _ end) => destruct x
        end ].
Qed.

Lemma calls_made_prefix : calls_made `prefix_of` session_calls.
Proof.
  unfold calls_made, session_calls.
  destruct connect; [by exists [Ping; ListTools; CallTool "get_neo4j_schema"]|].
  destruct ping; [by exists [ListTools; CallTool "get_neo4j_schema"]|].
  destruct list_tools; [by exists [CallTool "get_neo4j_schema"]|done].
Qed.

(** The handler of the probe prints and raises again. *)
Lemma handler_run (e : exn) (w : world) :
  (print ("✗ Error: " +:+ str_exn e) ;;
   print EmptyString ;;
   print "Troubleshooting:" ;;
   print "1. Ensure start_server.py is running in another terminal" ;;
   print "2. Check that server is listening on http://127.0.0.1:8001/mcp/" ;;
   print "3. Verify API key matches between .env and running server" ;;
   raise (A := ()) e) w =
    (Raised e,
     World (env_file w) (environ w) (stdout w ++ troubleshooting e) (trace w)).
Proof. do 6 step. cbn. by rewrite <- !app_assoc. Qed.

(** X2: how the local probe ends.  It returns or it raises, it never calls
    [sys.exit]; when it raises an [Exception], the session was opened, the
    last lines printed are the error and the troubleshooting advice, and the
    interpreter ends with status 1: the exception is the one of the session,
    passed on. *)
Theorem probe_failure_reported (w : world) :
  match (main w).1 with
  | Returned _ => True
  | Exited _ => False
  | Raised e =>
      is_Exception e = true →
      (∃ out, stdout (main w).2 = out ++ troubleshooting e) ∧
      exit_status (main w).1 = 1 ∧
      trace (main w).2 ≠ trace w
  end.
Proof.
  rewrite ProbeSpec.probe_main_run. cbn zeta.
  destruct (env_file w) as [t|] eqn:Ht; [|done].
  destruct (truthy _) eqn:Hkey; [|done].
  unfold try_except.
  match goal with
  | |- context [session ?w0] =>
      pose proof (session_trace w0) as Htr; pose proof (never_exits_session w0) as Hq
  end.
  destruct (session _) as [[[]|c|e'] w1]; [done|by destruct (Hq c)|].
  destruct (is_Exception e') eqn:He'; [|by cbn; rewrite He'].
  rewrite handler_run. cbn [fst snd stdout trace]. intros _.
  split_and!; [by eexists|by destruct e'|].
  cbn in Htr. rewrite Htr, <- app_assoc. intros Heq.
  apply (f_equal length) in Heq. rewrite !length_app in Heq. cbn in Heq. lia.
Qed.

(** The calls of a run of [main]. *)
Lemma main_trace (w : world) :
  trace (main w).2 =
    trace w ++
      (if bool_decide (is_Some (env_file w)) &&
          truthy (load_env (env_file w) (environ w) !! "NEO4J_API_KEY")
       then Transport server_url (fmt (load_env (env_file w) (environ w) !! "NEO4J_API_KEY"))
              :: calls_made
       else []).
Proof.
  rewrite ProbeSpec.probe_main_run. cbn zeta.
  destruct (env_file w) as [t|] eqn:Ht; [|by rewrite app_nil_r].
  rewrite bool_decide_eq_true_2 by eauto. cbn [andb].
  destruct (truthy _) eqn:Hkey; [|by rewrite app_nil_r].
  unfold try_except.
  match goal with
  | |- context [session ?w0] => pose proof (session_trace w0) as Htr
  end.
  destruct (session _) as [[[]|c|e'] w1]; cbn in Htr |- *;
    [by rewrite Htr, <- app_assoc..|].
  destruct (is_Exception e'); [rewrite handler_run|]; cbn; by rewrite Htr, <- app_assoc.
Qed.

(** X3: the calls of the local probe.  Without a credential nothing goes out
    of the process.  With one, the transport is built for the fixed address
    with that credential, and the session makes its calls in the order
    open, ping, list tools, call [get_neo4j_schema]: each one only when the
    one before was answered, none twice, and no other tool is ever called. *)
Theorem probe_calls_in_order (w : world) :
  let cred := load_env (env_file w) (environ w) !! "NEO4J_API_KEY" in
  trace (main w).2 =
    trace w ++
      (if bool_decide (is_Some (env_file w)) && truthy cred
       then Transport server_url (fmt cred) :: calls_made
       else []) ∧
  calls_made `prefix_of` session_calls.
Proof. intros cred. split; [apply main_trace|apply calls_made_prefix]. Qed.

(** What a run of [run_in_docker] does. *)
Lemma run_in_docker_run (w : world) :
  run_in_docker w =
    let out0 :=
      stdout w ++ [repeat_str "=" 60; "Running MCP Client in Docker Container";
                   repeat_str "=" 60; EmptyString] in
    match env_file w with
    | None =>
        (Exited 1,
         World None (environ w)
           (out0 ++ ["✗ .env file not found";
                     "Please run start_server.py first to generate API key"])
           (trace w))
    | Some t =>
        let env := load_env (Some t) (environ w) in
        let api_key := fmt (env !! "NEO4J_API_KEY") in
        let p := Spawn (docker_cmd api_key) None None in
        let out1 :=
          out0 ++ ["✓ Loaded API key from .env: " +:+ str_take 16 api_key +:+ "...";
                   EmptyString;
                   "Starting Docker container...";
                   "Command: " +:+ join " " (take 8 (docker_cmd api_key))
                     +:+ " ... python:3.11-slim ...";
                   EmptyString] in
        let tr1 := trace w ++ [Ran p (run_child p)] in
        if truthy (env !! "NEO4J_API_KEY") then
          match run_child p with
          | Completed rc =>
              if rc =? 0 then (Exited rc, World (Some t) env out1 tr1)
              else
                (Exited rc,
                 World (Some t) env
                   (out1 ++ [nl +:+ "✗ Docker execution failed with exit code " +:+ pretty rc;
                             nl +:+ "Troubleshooting:";
                             "1. Ensure Docker is installed and running";
                             "2. Ensure the MCP server is running (start_server.py)";
                             "3. Check that the .env file contains a valid API key"])
                   tr1)
          | Interrupted => (Raised KeyboardInterrupt, World (Some t) env out1 tr1)
          | NotFound =>
              (Exited 1,
               World (Some t) env
                 (out1 ++ ["✗ Docker not found";
                           "Please install Docker: https://docs.docker.com/get-docker/"])
                 tr1)
          end
        else
          (Exited 1,
           World (Some t) env
             (out0 ++ ["✗ NEO4J_API_KEY not found in .env";
                       "Please run start_server.py first to generate API key"])
             (trace w))
    end.
Proof.
  destruct w as [[t|] env out tr]; unfold run_in_docker.
  - unfold path_exists, load_dotenv, os_getenv, print, sys_exit, raise, log, try_except,
      subprocess_run, mbind, M_bind, mret, M_ret.
    cbn -[lookup union app load_env String.append repeat_str truthy str_take docker_cmd
          join take pretty Z.eqb].
    destruct (truthy _);
      cbn -[lookup union app load_env String.append repeat_str truthy str_take docker_cmd
            join take pretty Z.eqb]; [|by flat].
    destruct (run_child _) as [rc| |];
      cbn -[lookup union app load_env String.append repeat_str truthy str_take docker_cmd
            join take pretty Z.eqb]; [destruct (rc =? 0) eqn:E|..];
      cbn -[lookup union app load_env String.append repeat_str truthy str_take docker_cmd
            join take pretty Z.eqb]; flat; rewrite ?E; try reflexivity.
  - run. flat. reflexivity.
Qed.

(** X4: the probe in a container ends with the status of the container: it
    never returns; without the file or without a credential it exits with 1
    and runs nothing; with a credential it runs one container, which is
    given that credential, and calls [sys.exit] with the return code of
    that container, so that the status of the process is that code modulo
    256 (0 for a container that succeeded, 247 for one that signal 9
    killed, whose return code is -9); the status is 1 when there is no
    container runtime. *)
Theorem run_in_docker_exit_status (w : world) :
  let cred := load_env (env_file w) (environ w) !! "NEO4J_API_KEY" in
  let r := run_in_docker w in
  r.1 ≠ Returned () ∧
  if bool_decide (is_Some (env_file w)) && truthy cred then
    let p := Spawn (docker_cmd (fmt cred)) None None in
    trace r.2 = trace w ++ [Ran p (run_child p)] ∧
    argv p !! 10%nat = Some ("NEO4J_API_KEY=" +:+ fmt cred) ∧
    match run_child p with
    | Completed rc =>
        r.1 = Exited rc ∧ exit_status r.1 = rc mod 256 ∧ 0 ≤ exit_status r.1 < 256
    | Interrupted => r.1 = Raised KeyboardInterrupt
    | NotFound => r.1 = Exited 1 ∧ exit_status r.1 = 1
    end
  else
    r.1 = Exited 1 ∧ exit_status r.1 = 1 ∧ trace r.2 = trace w.
Proof.
  intros cred r. subst cred r. rewrite run_in_docker_run. cbn zeta.
  destruct (env_file w) as [t|] eqn:Ht; [|done].
  rewrite bool_decide_eq_true_2 by eauto. cbn [andb].
  destruct (truthy _) eqn:Hkey; [|done].
  destruct (run_child _) as [rc| |]; [|done..].
  assert (0 ≤ rc mod 256 < 256) by (apply Z.mod_pos_bound; lia).
  destruct (rc =? 0); done.
Qed.

(** X5: the probe reads and never writes.  In both variants the
    configuration file is after the run what it was before, and every
    variable of the environment still has its value: loading the file only
    adds the variables that were not set. *)
Theorem probe_read_only (docker : bool) (w : world) :
  env_file (script docker w).2 = env_file w ∧
  (∀ k v, environ w !! k = Some v → environ (script docker w).2 !! k = Some v).
Proof.
  assert (Hmain : keeps read_only main).
  { unfold main.
    repeat match goal with
           | |- keeps _ session => apply keeps_session; intros; leaf
           | |- keeps _ (try_except _ _) => apply keeps_try; [|intros ? ? ?]
           | |- keeps _ (_ ≫= _) => apply keeps_bind; [|intros ?]
           | |- keeps _ (raise _) => apply keeps_raise
           | |- keeps _ (if ?b then _ else _) => destruct b
           | H : (if ?b then _ else _) = Some _ |- _ => destruct b; simplify_eq
           | |- keeps _ _ => solve [leaf]
           end. }
  assert (Hdocker : keeps read_only run_in_docker).
  { intros w0. rewrite run_in_docker_run. cbn zeta.
    unfold read_only, same_file, env_grows.
    destruct (env_file w0) as [t|] eqn:Ht; [|by cbn].
    destruct (truthy _); [destruct (run_child _) as [rc| |]; [destruct (rc =? 0)|..]|];
      cbn -[load_env]; rewrite ?Ht; (split; [done|intros k v; apply load_env_mono]). }
  split_and!.
  - destruct docker; [apply Hdocker|apply Hmain].
  - destruct docker; [apply Hdocker|apply Hmain].
Qed.

(** ** The summary, when it fails *)

Lemma keys_of_type_objects (tag : string) (items : list (string * json)) :
  keys_of_type tag items =
    if forallb is_object items then inr (group tag items).*1 else inl AttributeError.
Proof.
  induction items as [|[k v] items IH]; [done|].
  cbn [keys_of_type forallb]. unfold is_object at 1. cbn [snd].
  destruct v as [| | | | | |d]; try done.
  rewrite IH. cbn [andb]. destruct (forallb is_object items); [|done].
  unfold group. cbn [List.filter].
  change (has_type tag (k, JObj d)) with (eq_str (dict_get d "type") tag).
  by destruct (eq_str _ tag).
Qed.

(** The loop over a group stops at the first entry without a length. *)
Lemma print_types_outcome (what : string) (items entries : list (string * json)) (w : world) :
  (∀ kv, kv ∈ entries → dict_get items kv.1 = Some kv.2 ∧ is_object kv = true) →
  (print_types what items entries.*1 w).1 =
    if forallb sized entries then Returned () else Raised TypeError.
Proof.
  revert w. induction entries as [|[k v] entries IH]; intros w Hok; [done|].
  destruct (Hok (k, v)) as [Hget Hobj]; [by left|].
  unfold is_object in Hobj. cbn [fst snd] in Hget, Hobj.
  destruct v as [| | | | | |d]; try done.
  cbn [fmap list_fmap fst print_types forallb]. unfold sized at 1. cbn [snd].
  rewrite bind_run, Hget, ret_run, bind_run.
  destruct (py_len _) as [e|n] eqn:Hlen.
  - cbn. unfold py_len in Hlen. by destruct (default _ _); simplify_eq.
  - rewrite lift_run, bind_run, print_run. cbn [andb].
    apply IH. intros kv Hkv. apply Hok. by right.
Qed.

Lemma group_objects (tag : string) (items : list (string * json)) :
  NoDup items.*1 →
  ∀ kv, kv ∈ group tag items → dict_get items kv.1 = Some kv.2 ∧ is_object kv = true.
Proof.
  intros Hnd [k v] [Hin Htype]%ProbeSpec.group_subset. split.
  - by apply ProbeSpec.dict_get_elem.
  - unfold has_type in Htype. unfold is_object. cbn [snd] in *. by destruct v.
Qed.

(** X6: how the summary ends, for every value that [json.loads] can return.
    It raises [AttributeError] when the value is no object or when one of its
    entries is no object, and then reports no group; it raises [TypeError]
    when the entries are objects and one of those of type [node] or
    [relationship] has [properties] without a length; it returns in every
    other case. *)
Theorem summary_outcome (v : json) (w : world) :
  match v with
  | JObj items => NoDup items.*1
  | _ => True
  end →
  (print_summary v w).1 =
    match v with
    | JObj items =>
        if forallb is_object items then
          if forallb sized (group "node" items) && forallb sized (group "relationship" items)
          then Returned ()
          else Raised TypeError
        else Raised AttributeError
    | _ => Raised AttributeError
    end.
Proof.
  intros Hnd. unfold print_summary. do 2 step.
  destruct v as [| | | | | |items]; try done.
  cbn [dict_items]. rewrite bind_run, lift_run, bind_run.
  rewrite !keys_of_type_objects.
  destruct (forallb is_object items); [|done].
  rewrite lift_run, bind_run, lift_run. do 3 step. rewrite bind_run.
  assert (Hgroup : ∀ title what tag w0,
    ((if bool_decide ((group tag items).*1 ≠ []) then
        print title ;; print_types what items (group tag items).*1 ;; print EmptyString
      else mret ()) w0).1 =
      if forallb sized (group tag items) then Returned () else Raised TypeError).
  { intros title what tag w0.
    pose proof (group_objects tag items Hnd) as Hok.
    destruct (group tag items) as [|kv entries] eqn:E; [done|].
    rewrite bool_decide_eq_true_2 by done. rewrite bind_run, print_run, bind_run.
    pose proof (print_types_outcome what items (kv :: entries)
                  {| env_file := env_file w0; environ := environ w0;
                     stdout := stdout w0 ++ [title]; trace := trace w0 |} Hok) as Hout.
    destruct (print_types _ _ _ _) as [[[]|c|e] w1]; cbn [fst] in Hout |- *;
      by rewrite <- Hout. }
  match goal with
  | |- context [(if bool_decide _ then _ else _) ?w0] =>
      pose proof (Hgroup "Node Types:" "nodes" "node" w0) as Hnodes
  end.
  match type of Hnodes with
  | (?x).1 = _ => destruct x as [[[]|c|e] w1]
  end; cbn [fst] in Hnodes |- *.
  - destruct (forallb sized (group "node" items)); [|done]. cbn [andb]. apply Hgroup.
  - by destruct (forallb sized (group "node" items)).
  - destruct (forallb sized (group "node" items)); [done|]. cbn [andb]. congruence.
Qed.

(** X7: the probe takes the key that the provisioner wrote.  On a file
    written by [update_env_with_api_key] with plain values, and with no
    NEO4J_API_KEY in the environment of the process, the probe builds its
    transport with the key of the file; and the address that the probe has
    as a constant is the one made of the host, the port and the path that
    the reader finds in that file, where the provisioner wrote them as
    constants. *)
Theorem probe_uses_provisioned_key (uri user pw db key : string) (w : world) :
  Plain.reads_plain →
  forallb Plain.plain_value [uri; user; pw; db; key] = true →
  key ≠ EmptyString →
  env_file w = Some (Provisioner.env_content uri user pw db key) →
  environ w !! "NEO4J_API_KEY" = None →
  let t := Provisioner.env_content uri user pw db key in
  trace (main w).2 = trace w ++ Transport server_url key :: calls_made ∧
  ∃ host port path,
    file_value (environ w) t "NEO4J_MCP_SERVER_HOST" = Some host ∧
    file_value (environ w) t "NEO4J_MCP_SERVER_PORT" = Some port ∧
    file_value (environ w) t "NEO4J_MCP_SERVER_PATH" = Some path ∧
    server_url = "http://" +:+ host +:+ ":" +:+ port +:+ path.
Proof.
  intros Hplain Hvalues Hkey Hfile Hunset t.
  destruct (ProvisionerSpec.written_reads_back uri user pw db key (environ w) Hplain Hvalues)
    as (_ & _ & _ & _ & _ & Rhost & Rport & Rpath & Rkey).
  split.
  - rewrite main_trace, Hfile. rewrite bool_decide_eq_true_2 by eauto. cbn [andb].
    rewrite ProvisionerSpec.load_env_unset by done.
    rewrite Rkey, truthy_true by done. done.
  - eexists _, _, _. split_and!; [exact Rhost|exact Rport|exact Rpath|reflexivity].
Qed.

End WithOutside.

(** ** Instances *)

Lemma summary_outcome_witness :
  (print_summary (H := Plain.quiet)
     (JObj [ ("Person", JObj [ ("type", JStr "node"); ("properties", JInt 3) ]) ])
     (Plain.start None ∅)).1 = Raised TypeError.
Proof.
  rewrite (summary_outcome (H := Plain.quiet)); [by vm_compute|].
  apply (bool_decide_unpack _). by vm_compute.
Defined.

Lemma probe_uses_provisioned_key_witness :
  trace (main (H := Quoting.outside) (H0 := Plain.refusing)
           (Plain.start (Some Sample.env_written) ∅)).2 =
    [Transport server_url "previous-key"; Opened].
Proof.
  destruct (probe_uses_provisioned_key (H := Quoting.outside) (H0 := Plain.refusing)
              "bolt://db.example.com:7687" "neo4j" "s3cret" "movies" "previous-key"
              (Plain.start (Some Sample.env_written) ∅)) as [E _].
  - apply ProvisionerSpec.quoting_reads_plain.
  - by vm_compute.
  - done.
  - reflexivity.
  - apply lookup_empty.
  - rewrite E. by vm_compute.
Defined.

Lemma probe_run_reports_witness :
  let r := main (H := Sample.parsing) (H0 := Sample.answering)
             (Plain.start (Some Sample.env_written) ∅) in
  r.1 = Returned () ∧
  trace r.2 = [Transport server_url "previous-key"; Opened; Ping; ListTools;
               CallTool "get_neo4j_schema"] ∧
  "  - Person: 1 properties, 5 nodes" ∈ stdout r.2 ∧
  "  - KNOWS: 0 properties, 2 relationships" ∈ stdout r.2 ∧
  "✓ Client demo completed successfully" ∈ stdout r.2.
Proof.
  intros r. subst r.
  rewrite (ProbeSpec.probe_run_reports (H := Sample.parsing) (H0 := Sample.answering)
             (Plain.start (Some Sample.env_written) ∅) Sample.env_written "previous-key"
             "schema"
             [ Tool "get_neo4j_schema" (Some "Returns the schema of the graph");
               Tool "read_neo4j_cypher" None ]
             (Content "text" (Some "schema")) []
             [ ("Person", JObj [ ("type", JStr "node");
                                 ("properties", JObj [ ("name", JObj []) ]);
                                 ("count", JInt 5) ]);
               ("KNOWS", JObj [ ("type", JStr "relationship");
                                ("properties", JObj []);
                                ("count", JInt 2) ]) ]).
  - split_and!; [reflexivity|reflexivity|..];
      apply (bool_decide_unpack _); by vm_compute.
  - reflexivity.
  - by vm_compute.
  - done.
  - reflexivity.
  - reflexivity.
  - reflexivity.
  - reflexivity.
  - reflexivity.
  - reflexivity.
  - apply (bool_decide_unpack _). by vm_compute.
  - by vm_compute.
Defined.

End ProbeMore.


(** ** The provisioner, further *)

Module ProvisionerMore.
Import Py Provisioner Run Frame FrameFacts TextMore.

(** X8: the address that the container is given never has [127.0.0.1] in it,
    whatever the address of the environment.  It may still have [localhost]
    in it: rewriting [locallocalhost] leaves [localhost.docker.internal]. *)
Theorem rewritten_address_has_no_127 (u : string) :
  (∃ v, docker_uri (Some u) = Some v ∧ contains "127.0.0.1" v = false) ∧
  docker_uri (Some "bolt://locallocalhost:7687") = Some "bolt://localhost.docker.internal:7687".
Proof.
  split; [|reflexivity]. unfold docker_uri.
  destruct (references_loopback (Some u)) eqn:E.
  - eexists. split; [reflexivity|]. unfold to_container_host, replace.
    rewrite contains_find.
    erewrite find_replace; [done|reflexivity|reflexivity|..];
      cbn; rewrite !not_elem_of_cons; split_and!; try done; apply not_elem_of_nil.
  - exists u. split; [done|]. unfold references_loopback in E.
    destruct u as [|c u]; [done|]. cbn [truthy String.eqb negb andb] in E.
    by apply orb_false_iff in E as [_ E].
Qed.

(** Laying over an environment what was read from it changes nothing. *)
Lemma dict_update_id (env : gmap string string) (kvs : list (string * string)) :
  (∀ kv, kv ∈ kvs → env !! kv.1 = Some kv.2) → dict_update env kvs = env.
Proof.
  induction kvs as [|[k v] kvs IH]; intros Hkvs; [done|].
  cbn. rewrite insert_id by (apply (Hkvs (k, v)); by left).
  apply IH. intros kv Hkv. apply Hkvs. by right.
Qed.

(** The environment of the child is the environment of the process with the
    new key in it: the eight other entries of the mapping are the values
    that the environment already has. *)
Lemma overlay_insert (env : gmap string string) (api_key : string) :
  overlay env api_key = <["NEO4J_API_KEY" := api_key]> env.
Proof.
  unfold overlay.
  change (env_updates env api_key)
    with (((λ k, (k, env !! k)) <$> read_names) ++ [("NEO4J_API_KEY", Some api_key)]).
  unfold drop_none. rewrite omap_app. unfold dict_update. rewrite foldl_app. cbn [omap list_omap foldl fst snd].
  f_equal. apply dict_update_id.
  intros [k v] Hin. apply list_elem_of_omap in Hin as ([k' o] & Hin & Heq).
  apply list_elem_of_fmap in Hin as (k'' & [= -> ->] & _).
  cbn in Heq. destruct (env !! k'') eqn:E; by simplify_eq.
Qed.

Section WithOutside.
Context `{Outside}.

(** X9: the child of the local launch has the environment of the process, as
    it is once the file is loaded, with NEO4J_API_KEY set to the key it was
    given, and nothing else changed: reading eight variables and laying them
    over the environment they were read from is no change. *)
Theorem local_child_environment (api_key : string) (w : world) :
  ∃ res,
    trace (start_server api_key w).2 =
      trace w ++
        [Ran (Spawn ["uv"; "run"; "mcp-neo4j-cypher"] (Some project_dir)
                (Some (<["NEO4J_API_KEY" := api_key]> (load_env (env_file w) (environ w)))))
             res].
Proof.
  exists (run_child (uv_run (load_env (env_file w) (environ w)) api_key)).
  rewrite ProvisionerSpec.start_server_run. cbn zeta. unfold uv_run.
  rewrite overlay_insert. by destruct (run_child _).
Qed.

(** ** What the provisioner keeps *)

Lemma keeps_subprocess_run {R : world → world → Prop} `{!PreOrder R} (p : spawn)
    (check : bool) :
  (∀ ev, keeps R (log ev)) → keeps R (subprocess_run p check).
Proof.
  intros R_log. unfold subprocess_run. cbn zeta.
  apply keeps_bind; [apply R_log|intros _].
  destruct (run_child p); [destruct (_ && _)|..];
    first [apply keeps_ret|apply keeps_raise].
Qed.

(** The steps of a launcher, in turn. *)
Ltac launcher :=
  repeat match goal with
         | |- keeps _ (subprocess_run _ _) => apply keeps_subprocess_run; intros; leaf
         | |- keeps _ (try_except _ _) => apply keeps_try; [|intros ? ? ?]
         | |- keeps _ (_ ≫= _) => apply keeps_bind; [|intros ?]
         | |- keeps _ (mret _) => apply keeps_ret
         | |- keeps _ (sys_exit _) => apply keeps_exit
         | |- keeps _ (if ?b then _ else _) => destruct b
         | H : match ?e with _ => _ end = Some _ |- _ => destruct e; simplify_eq
         | |- keeps _ _ => solve [leaf]
         end.

Lemma start_server_reads (api_key : string) : keeps read_only (start_server api_key).
Proof. unfold start_server. launcher. Qed.

Lemma start_server_docker_reads (api_key : string) :
  keeps read_only (start_server_docker api_key).
Proof. unfold start_server_docker. launcher. Qed.

Lemma update_env_grows (api_key : string) :
  keeps env_grows (update_env_with_api_key api_key).
Proof. unfold update_env_with_api_key. launcher. Qed.

Lemma read_only_env_grows {A} (m : M A) : keeps read_only m → keeps env_grows m.
Proof. intros Hm w. apply Hm. Qed.

(** X10: what a run of the provisioner does to the file and to the
    environment.  A variable that the process had keeps its value to the end
    of the run, in both modes.  The launchers never write the file.  At the
    end of a run the file is what it was, or it is the text that
    [update_env_with_api_key] writes, with the key of this run. *)
Theorem provisioner_file_and_environment (docker : bool) (api_key : string) (w : world) :
  (∀ k v, environ w !! k = Some v → environ (main docker w).2 !! k = Some v) ∧
  env_file (start_server api_key w).2 = env_file w ∧
  env_file (start_server_docker api_key w).2 = env_file w ∧
  (env_file (main docker w).2 = env_file w ∨
   ∃ uri user pw db,
     env_file (main docker w).2 = Some (env_content uri user pw db generate_api_key)).
Proof.
  split_and!.
  - assert (keeps env_grows (main docker)) as Hmain; [|apply Hmain].
    unfold main. cbn zeta.
    repeat (apply keeps_bind; [solve [leaf]|intros _]).
    apply keeps_bind; [apply update_env_grows|intros _].
    destruct docker; apply read_only_env_grows;
      [apply start_server_docker_reads|apply start_server_reads].
  - apply start_server_reads.
  - apply start_server_docker_reads.
  - rewrite ProvisionerSpec.main_run. cbn zeta. rewrite ProvisionerSpec.update_env_run.
    cbn [env_file environ stdout trace].
    destruct (env_file w) as [t|] eqn:Ht; [|by left].
    cbn zeta. destruct (forallb truthy _); [|by left].
    right. eexists _, _, _, _.
    destruct docker; [rewrite (proj1 (start_server_docker_reads _ _))
                     |rewrite (proj1 (start_server_reads _ _))]; reflexivity.
Qed.

(** X11: the local server is started with what was written.  When the run
    gets to the launch, the file has the address, the user and the password
    that the child finds in its environment, and the key of the file is the
    key of the child.  Every other variable that the environment had once
    the prior file was loaded is passed on with that value: the port of the
    prior file, if it had one, and not the 8001 of the new file. *)
Theorem server_gets_written_fields (w : world) :
  let r := main false w in
  (r.1 = Exited 1 ∧ trace r.2 = trace w ∧ env_file r.2 = env_file w) ∨
  ∃ t uri user pw db child res,
    env_file w = Some t ∧
    env_file r.2 = Some (env_content uri user pw db generate_api_key) ∧
    trace r.2 =
      trace w ++ [Ran (Spawn ["uv"; "run"; "mcp-neo4j-cypher"] (Some project_dir) (Some child))
                    res] ∧
    child !! "NEO4J_URI" = Some uri ∧
    child !! "NEO4J_USERNAME" = Some user ∧
    child !! "NEO4J_PASSWORD" = Some pw ∧
    child !! "NEO4J_API_KEY" = Some generate_api_key ∧
    (∀ k v, k ≠ "NEO4J_API_KEY" →
            load_env (Some t) (environ w) !! k = Some v → child !! k = Some v).
Proof.
  intros r. subst r. rewrite ProvisionerSpec.main_run. cbn zeta.
  rewrite ProvisionerSpec.update_env_run. cbn [env_file environ stdout trace].
  destruct (env_file w) as [t|] eqn:Ht; [|by left].
  cbn zeta. destruct (forallb truthy _) eqn:Hall; [|by left].
  right. apply ProvisionerSpec.all_truthy in Hall as (H1 & H2 & H3).
  apply truthy_Some in H1 as (uri & Huri & _).
  apply truthy_Some in H2 as (user & Huser & _).
  apply truthy_Some in H3 as (pw & Hpw & _).
  rewrite ProvisionerSpec.start_server_run. cbn [env_file environ stdout trace]. cbn zeta.
  set (env1 := load_env (Some t) (environ w)) in *.
  rewrite Huri, Huser, Hpw.
  change (fmt (Some uri)) with uri. change (fmt (Some user)) with user.
  change (fmt (Some pw)) with pw.
  set (file := env_content uri user pw (default "neo4j" (env1 !! "NEO4J_DATABASE"))
                 generate_api_key).
  assert (Hchild : ∀ k v, k ≠ "NEO4J_API_KEY" → env1 !! k = Some v →
                          overlay (load_env (Some file) env1) generate_api_key !! k = Some v).
  { intros k v Hk Hv. rewrite overlay_insert, lookup_insert_ne by done.
    by apply load_env_mono. }
  exists t, uri, user, pw, (default "neo4j" (env1 !! "NEO4J_DATABASE")),
    (overlay (load_env (Some file) env1) generate_api_key),
    (run_child (uv_run (load_env (Some file) env1) generate_api_key)).
  split_and!; try done.
  - by destruct (run_child _).
  - by destruct (run_child _).
  - by apply Hchild.
  - by apply Hchild.
  - by apply Hchild.
  - by rewrite overlay_insert, lookup_insert_eq.
Qed.

(** X12: the container is started with what was written.  A container is
    run only after a build that ended with 0, and then it is given the
    address of the file (rewritten for the container), the user and the
    password of the file and the key of the file, and it is told to listen
    on all interfaces. *)
Theorem container_gets_written_fields (w : world) :
  let r := main true w in
  (trace r.2 = trace w ∨ ∃ res, trace r.2 = trace w ++ [Ran docker_build res]) ∨
  ∃ uri user pw db port path db' res,
    env_file r.2 = Some (env_content uri user pw db generate_api_key) ∧
    trace r.2 =
      trace w ++
        [Ran docker_build (Completed 0);
         Ran (Spawn (docker_run_cmd port path "0.0.0.0" (docker_uri (Some uri))
                       (Some user) (Some pw) db' generate_api_key) None None) res].
Proof.
  intros r. subst r. rewrite ProvisionerSpec.main_run. cbn zeta.
  rewrite ProvisionerSpec.update_env_run. cbn [env_file environ stdout trace].
  destruct (env_file w) as [t|] eqn:Ht; [|by left; left].
  cbn zeta. destruct (forallb truthy _) eqn:Hall; [|by left; left].
  apply ProvisionerSpec.all_truthy in Hall as (H1 & H2 & H3).
  apply truthy_Some in H1 as (uri & Huri & _).
  apply truthy_Some in H2 as (user & Huser & _).
  apply truthy_Some in H3 as (pw & Hpw & _).
  rewrite ProvisionerSpec.start_server_docker_run.
  cbn [env_file environ stdout trace]. cbn zeta.
  set (env1 := load_env (Some t) (environ w)) in *.
  rewrite Huri, Huser, Hpw.
  change (fmt (Some uri)) with uri. change (fmt (Some user)) with user.
  change (fmt (Some pw)) with pw.
  set (file := env_content uri user pw (default "neo4j" (env1 !! "NEO4J_DATABASE"))
                 generate_api_key).
  set (env2 := load_env (Some file) env1).
  destruct (run_child docker_build) as [rc| |] eqn:Hb; [|left; right; by eexists..].
  destruct (rc =? 0) eqn:Hrc; [|left; right; by eexists].
  apply Z.eqb_eq in Hrc as ->. right.
  exists uri, user, pw, (default "neo4j" (env1 !! "NEO4J_DATABASE")),
    (default "8001" (env2 !! "NEO4J_MCP_SERVER_PORT")),
    (default "/mcp/" (env2 !! "NEO4J_MCP_SERVER_PATH")),
    (default "neo4j" (env2 !! "NEO4J_DATABASE")),
    (run_child (docker_run env2 generate_api_key)).
  assert (docker_run env2 generate_api_key =
          Spawn (docker_run_cmd (default "8001" (env2 !! "NEO4J_MCP_SERVER_PORT"))
                   (default "/mcp/" (env2 !! "NEO4J_MCP_SERVER_PATH")) "0.0.0.0"
                   (docker_uri (Some uri)) (Some user) (Some pw)
                   (default "neo4j" (env2 !! "NEO4J_DATABASE")) generate_api_key)
                None None) as Hrun.
  { unfold docker_run, env2.
    by rewrite (load_env_mono _ _ _ _ Huri), (load_env_mono _ _ _ _ Huser),
         (load_env_mono _ _ _ _ Hpw). }
  rewrite <- Hrun.
  destruct (run_child (docker_run env2 generate_api_key)) as [rc'| |];
    cbn [fst snd env_file trace]; by rewrite <- app_assoc.
Qed.

(** X13: provisioning again keeps the connection.  When the file is one
    that the provisioner wrote with plain values, and the process has none
    of the four datastore variables set, a run writes the same address,
    user, password and database, with the new key in place of the old. *)
Theorem reprovisioning_keeps_fields (uri user pw db key key' : string) (w : world) :
  Plain.reads_plain →
  forallb Plain.plain_value [uri; user; pw; db; key] = true →
  uri ≠ EmptyString → user ≠ EmptyString → pw ≠ EmptyString →
  env_file w = Some (env_content uri user pw db key) →
  (∀ k, k ∈ ["NEO4J_URI"; "NEO4J_USERNAME"; "NEO4J_PASSWORD"; "NEO4J_DATABASE"] →
        environ w !! k = None) →
  ∃ w',
    update_env_with_api_key key' w = (Returned (), w') ∧
    env_file w' = Some (env_content uri user pw db key').
Proof.
  intros Hplain Hvalues Huri Huser Hpw Hfile Hunset.
  destruct (ProvisionerSpec.written_reads_back uri user pw db key (environ w) Hplain Hvalues)
    as (Ruri & Ruser & Rpw & Rdb & _).
  rewrite ProvisionerSpec.update_env_run, Hfile. cbn zeta.
  rewrite !ProvisionerSpec.load_env_unset by (apply Hunset; repeat constructor).
  rewrite Ruri, Ruser, Rpw, Rdb. cbn [forallb].
  rewrite !truthy_true by done. cbn [andb].
  eexists. split; reflexivity.
Qed.

End WithOutside.

(** ** Instances *)

Lemma reprovisioning_keeps_fields_witness :
  ∃ w',
    update_env_with_api_key (H := Quoting.outside) "fresh"
      (Plain.start (Some Sample.env_written) ∅) = (Returned (), w') ∧
    env_file w' =
      Some (env_content "bolt://db.example.com:7687" "neo4j" "s3cret" "movies" "fresh").
Proof.
  apply (reprovisioning_keeps_fields (H := Quoting.outside)
           "bolt://db.example.com:7687" "neo4j" "s3cret" "movies" "previous-key" "fresh"
           (Plain.start (Some Sample.env_written) ∅)).
  - apply ProvisionerSpec.quoting_reads_plain.
  - by vm_compute.
  - done.
  - done.
  - done.
  - reflexivity.
  - intros k _. apply lookup_empty.
Defined.

End ProvisionerMore.
